(** * FLOPS benchmark runner: a shallow embedding of [benchmark_runner.py]

    The development follows the pipeline of [BenchmarkRunner]:
    registry detection ([_detect_benchmarks]), timed execution and output
    parsing ([_run_benchmark]), aggregation and rendering
    ([_display_results], [_display_detailed_output]) and the driver
    ([run_benchmarks], [main]).

    Modelling conventions.
    - A Python [str] is a [string]; each [ascii] stands for the code point
      of the same number (U+0000 .. U+00FF).
    - A Python [float] is an exact rational ([Q]).  The values that occur are
      decimal literals read by [float], their maxima and minima, a division
      by 1000 and a quotient of two of them; order and equality are those of
      the rationals ([==] is numeric equality).  Binary rounding and
      overflow to infinity are outside the model.
    - Exceptions are values of [exn]; a computation that may raise returns
      a [result].
    - The outside world (file system, child processes, clock, optional
      packages) is an explicit [world] record read by the code. *)

From Stdlib Require Import String Ascii List ZArith QArith Lia Bool DecimalString.
Import ListNotations.
Open Scope string_scope.

(** ** Exceptions and results *)

Inductive exn : Type :=
| ValueError (msg : string)
| ZeroDivisionError (msg : string)
| OtherError (msg : string).

(** [str(e)] *)
Definition str_of_exn (e : exn) : string :=
  match e with
  | ValueError m => m
  | ZeroDivisionError m => m
  | OtherError m => m
  end.

Inductive result (A : Type) : Type :=
| Ok (a : A)
| Raise (e : exn).
Arguments Ok {A} a.
Arguments Raise {A} e.

Definition bind {A B : Type} (r : result A) (f : A -> result B) : result B :=
  match r with
  | Ok a => f a
  | Raise e => Raise e
  end.

Notation "x <- r ;; k" := (bind r (fun x => k))
  (at level 61, r at next level, right associativity).

(** ** Text *)

Definition newline : ascii := ascii_of_nat 10.

Definition code (c : ascii) : nat := nat_of_ascii c.

(** [\d] on a [str] pattern: the decimal digits (category Nd); below U+0100
    these are 0-9 only. *)
Definition is_digit (c : ascii) : bool :=
  (48 <=? code c)%nat && (code c <=? 57)%nat.

(** [\s] on a [str] pattern: Unicode white space; below U+0100 these are
    TAB, LF, VT, FF, CR, the separators FS/GS/RS/US, SPACE, NEL and NBSP. *)
Definition is_space (c : ascii) : bool :=
  ((9 <=? code c)%nat && (code c <=? 13)%nat)
  || ((28 <=? code c)%nat && (code c <=? 32)%nat)
  || (code c =? 133)%nat
  || (code c =? 160)%nat.

Definition is_dot (c : ascii) : bool := (code c =? 46)%nat.

(** the class [[\d.]] *)
Definition is_numchar (c : ascii) : bool := is_digit c || is_dot c.

(** [s.split('\n')]: never empty; a trailing newline gives a last empty line *)
Fixpoint split_lines (s : string) : list string :=
  match s with
  | EmptyString => [EmptyString]
  | String c s' =>
      if Ascii.eqb c newline then EmptyString :: split_lines s'
      else match split_lines s' with
           | l :: ls => String c l :: ls
           | [] => [String c EmptyString]
           end
  end.

(** [s.startswith(t)] *)
Fixpoint starts_with (t s : string) : bool :=
  match t with
  | EmptyString => true
  | String a t' =>
      match s with
      | String b s' => Ascii.eqb a b && starts_with t' s'
      | EmptyString => false
      end
  end.

(** [needle in s] *)
Fixpoint contains (needle s : string) : bool :=
  starts_with needle s ||
  match s with
  | EmptyString => false
  | String _ s' => contains needle s'
  end.

(** ** The fragment of [re] the program uses

    Both patterns are sequences of literal characters, a greedy starred
    class and one capturing group around a greedy [+] on a class.  The
    matcher is the backtracking one of [re]: a greedy repetition first
    takes as much as it can and gives characters back while the rest of the
    pattern fails; [search] tries the start positions from the left. *)

Inductive atom : Type :=
| Lit (c : ascii)
| Star (cls : ascii -> bool)
| Plus (cls : ascii -> bool).

Record pattern : Type := mkPattern {
  pat_before : list atom;
  pat_group : atom;
  pat_after : list atom
}.

Definition lits (s : string) : list atom := map Lit (list_ascii_of_string s).

(** the continuation receives the text matched and the text left *)
Fixpoint greedy {A : Type} (cls : ascii -> bool) (s : string)
    (k : string -> string -> option A) : option A :=
  match s with
  | EmptyString => k EmptyString EmptyString
  | String c s' =>
      if cls c then
        match greedy cls s' (fun m r => k (String c m) r) with
        | Some x => Some x
        | None => k EmptyString s
        end
      else k EmptyString s
  end.

Definition match_atom {A : Type} (a : atom) (s : string)
    (k : string -> string -> option A) : option A :=
  match a with
  | Lit c =>
      match s with
      | String c' s' => if Ascii.eqb c' c then k (String c' EmptyString) s' else None
      | EmptyString => None
      end
  | Star cls => greedy cls s k
  | Plus cls =>
      match s with
      | String c s' => if cls c then greedy cls s' (fun m r => k (String c m) r) else None
      | EmptyString => None
      end
  end.

Fixpoint match_seq {A : Type} (p : list atom) (s : string)
    (k : string -> option A) : option A :=
  match p with
  | [] => k s
  | a :: p' => match_atom a s (fun _ r => match_seq p' r k)
  end.

(** a match starting exactly at the head of [s]; the value is [group(1)] *)
Definition match_at (p : pattern) (s : string) : option string :=
  match_seq (pat_before p) s (fun r1 =>
    match_atom (pat_group p) r1 (fun g r2 =>
      match_seq (pat_after p) r2 (fun _ => Some g))).

(** [re.search(p, s)], reduced to [group(1)] of the match object *)
Fixpoint search (p : pattern) (s : string) : option string :=
  match match_at p s with
  | Some g => Some g
  | None =>
      match s with
      | EmptyString => None
      | String _ s' => search p s'
      end
  end.

(** [r'MFLOPS:\s*([\d.]+)'] *)
Definition mflops_re : pattern :=
  mkPattern (lits "MFLOPS:" ++ [Star is_space]) (Plus is_numchar) [].

(** [r'([\d.]+)\s*GFLOPS'] *)
Definition gflops_re : pattern :=
  mkPattern [] (Plus is_numchar) (Star is_space :: lits "GFLOPS").

(** ** [float] on a captured token

    The token is a non-empty run of digits and dots.  [float] accepts it
    when it has at most one dot and at least one digit, and raises
    [ValueError] otherwise. *)

Fixpoint count_dots (s : string) : nat :=
  match s with
  | EmptyString => 0
  | String c s' => (if is_dot c then 1 else 0) + count_dots s'
  end.

Fixpoint count_digits (s : string) : nat :=
  match s with
  | EmptyString => 0
  | String c s' => (if is_digit c then 1 else 0) + count_digits s'
  end.

(** the digits of [s] read as a decimal numeral, [acc] being the value so far *)
Fixpoint digits_value (s : string) (acc : Z) : Z :=
  match s with
  | EmptyString => acc
  | String c s' =>
      if is_digit c then digits_value s' (10 * acc + Z.of_nat (code c - 48))
      else digits_value s' acc
  end.

(** number of digits after the dot *)
Fixpoint frac_digits (s : string) : nat :=
  match s with
  | EmptyString => 0
  | String c s' => if is_dot c then count_digits s' else frac_digits s'
  end.

Definition repr (s : string) : string := "'" ++ s ++ "'".

Fixpoint pow10 (n : nat) : positive :=
  match n with
  | O => 1%positive
  | S n' => (10 * pow10 n')%positive
  end.

Definition py_float (s : string) : result Q :=
  if ((count_dots s <=? 1)%nat && (1 <=? count_digits s)%nat)%bool then
    Ok (digits_value s 0 # pow10 (frac_digits s))
  else Raise (ValueError ("could not convert string to float: " ++ repr s)).

(** ** Numbers *)

Definition Qlt_bool (x y : Q) : bool := negb (Qle_bool y x).

(** [max(cur, *l, key=key)]: the running maximum is replaced only by a
    strictly greater key, so the first maximal item wins. *)
Fixpoint max_by_key {A : Type} (key : A -> Q) (cur : A) (l : list A) : A :=
  match l with
  | [] => cur
  | x :: l' => if Qlt_bool (key cur) (key x) then max_by_key key x l'
               else max_by_key key cur l'
  end.

(** [min(cur, *l, key=key)]: replaced only by a strictly smaller key *)
Fixpoint min_by_key {A : Type} (key : A -> Q) (cur : A) (l : list A) : A :=
  match l with
  | [] => cur
  | x :: l' => if Qlt_bool (key x) (key cur) then min_by_key key x l'
               else min_by_key key cur l'
  end.

Definition max_of (x : Q) (l : list Q) : Q := max_by_key (fun v => v) x l.
Definition min_of (x : Q) (l : list Q) : Q := min_by_key (fun v => v) x l.

(** [x / y] *)
Definition py_div (x y : Q) : result Q :=
  if Qeq_bool y 0 then Raise (ZeroDivisionError "division by zero")
  else Ok (x / y)%Q.

(** ** The outside world *)

Record fs_entry : Type := mkEntry {
  is_regular_file : bool;   (* [Path.is_file()] *)
  x_ok : bool               (* [os.access(path, os.X_OK)] *)
}.

(** what [subprocess.run([path], capture_output=True, text=True, timeout=120)]
    does, together with the two readings of [time.time()] around it *)
Inductive run_outcome : Type :=
| Completed (returncode : Z) (stdout stderr : string) (start_time end_time : Q)
| TimeoutExpired (partial_stdout : string)
| Raised (e : exn).

Record world : Type := mkWorld {
  cwd : string;
  script_dir : string;
  fs : string -> option fs_entry;
  spawn : string -> run_outcome;
  make_all : Z * string;            (* return code and stderr of [make all] *)
  RICH_AVAILABLE : bool;
  CLICK_AVAILABLE : bool;
  PSUTIL_AVAILABLE : bool
}.

(** [os.chdir(d)] *)
Definition chdir (w : world) (d : string) : world :=
  mkWorld d (script_dir w) (fs w) (spawn w) (make_all w)
          (RICH_AVAILABLE w) (CLICK_AVAILABLE w) (PSUTIL_AVAILABLE w).

Definition path_exists (w : world) (p : string) : bool :=
  match fs w p with Some _ => true | None => false end.

Definition path_is_file (w : world) (p : string) : bool :=
  match fs w p with Some e => is_regular_file e | None => false end.

Definition os_access_X_OK (w : world) (p : string) : bool :=
  match fs w p with Some e => x_ok e | None => false end.

(** [Path(filename).resolve()] for a bare file name *)
Definition resolve (w : world) (filename : string) : string :=
  cwd w ++ "/" ++ filename.

(** ** Benchmark registry: [_detect_benchmarks] *)

Record bench_info : Type := mkInfo {
  available : bool;
  path : string;
  executable : bool
}.

Definition benchmark_files : list (string * string) :=
  [ ("basic", "basic_benchmark");
    ("vectorized", "vectorized_benchmark");
    ("gpu", "gpu_benchmark") ].

(** the dictionary keeps insertion order: an association list *)
Definition _detect_benchmarks (w : world) : list (string * bench_info) :=
  map (fun nf : string * string =>
         let p := resolve w (snd nf) in
         (fst nf,
          mkInfo (path_exists w p && path_is_file w p)
                 p
                 (if path_exists w p then os_access_X_OK w p else false)))
      benchmark_files.

(** ** Execution and parsing: [_run_benchmark] *)

Record run_ok : Type := mkRunOk {
  output : string;
  mflops_values : list Q;
  gflops_values : list Q;
  max_mflops : Q;
  max_gflops : Q;
  run_duration : Q
}.

Inductive run_result : Type :=
| Succeeded (r : run_ok)              (* ["success": True] *)
| Failed (error : string) (duration : Q).   (* ["success": False] *)

(** the MFLOPS half of the loop body *)
Definition mflops_step (line : string) (m : list Q) : result (list Q) :=
  match search mflops_re line with
  | Some tok => v <- py_float tok ;; Ok (m ++ [v])%list
  | None => Ok m
  end.

(** the GFLOPS half of the loop body *)
Definition gflops_step (line : string) (g : list Q) : result (list Q) :=
  match search gflops_re line with
  | Some tok => v <- py_float tok ;; Ok (g ++ [v])%list
  | None => Ok g
  end.

Definition parse_line (line : string) (acc : list Q * list Q)
    : result (list Q * list Q) :=
  m' <- mflops_step line (fst acc) ;;
  g' <- gflops_step line (snd acc) ;;
  Ok (m', g').

Fixpoint parse_lines (lines : list string) (acc : list Q * list Q)
    : result (list Q * list Q) :=
  match lines with
  | [] => Ok acc
  | line :: rest => acc' <- parse_line line acc ;; parse_lines rest acc'
  end.

(** the loop [for line in result.stdout.split('\n')] *)
Definition parse_output (stdout : string) : result (list Q * list Q) :=
  parse_lines (split_lines stdout) ([], []).

(** [max(mflops_values) if mflops_values else 0] *)
Definition peak_mflops (m : list Q) : Q :=
  match m with
  | [] => 0%Q
  | x :: m' => max_of x m'
  end.

(** [max(gflops_values) if gflops_values else
     max(mflops_values)/1000 if mflops_values else 0] *)
Definition peak_gflops (m g : list Q) : Q :=
  match g with
  | y :: g' => max_of y g'
  | [] =>
      match m with
      | x :: m' => (max_of x m' / 1000)%Q
      | [] => 0%Q
      end
  end.

Definition _run_benchmark (benchmark_name executable_path : string)
    (o : run_outcome) : run_result :=
  match o with
  | Completed returncode stdout stderr start_time end_time =>
      if negb (returncode =? 0)%Z then Failed stderr (end_time - start_time)%Q
      else
        match parse_output stdout with
        | Ok (m, g) =>
            Succeeded (mkRunOk stdout m g (peak_mflops m) (peak_gflops m g)
                               (end_time - start_time)%Q)
        | Raise e => Failed (str_of_exn e) 0%Q
        end
  | TimeoutExpired _ => Failed "Benchmark timed out after 120 seconds" 120%Q
  | Raised e => Failed (str_of_exn e) 0%Q
  end.

(** ** String formatting *)

Fixpoint replicate (n : nat) (c : ascii) : string :=
  match n with
  | O => EmptyString
  | S n' => String c (replicate n' c)
  end.

(** [f"{s:<w}"] *)
Definition ljust (w : nat) (s : string) : string :=
  s ++ replicate (w - String.length s) " ".

Definition zfill (w : nat) (s : string) : string :=
  replicate (w - String.length s) "0" ++ s.

Definition str_of_nat (n : nat) : string := NilZero.string_of_uint (Nat.to_uint n).

(** [f"{x:.kf}"]: [k] decimals, ties to the even digit *)
Definition format_f (k : nat) (x : Q) : string :=
  let n := Qnum x in
  let d := Zpos (Qden x) in
  let a := (Z.abs n * Zpos (pow10 k))%Z in
  let q := (a / d)%Z in
  let r := (a mod d)%Z in
  let rounded :=
    if (d <? 2 * r)%Z then (q + 1)%Z
    else if (2 * r =? d)%Z then (if Z.even q then q else (q + 1)%Z)
    else q in
  let ds := zfill (S k) (NilZero.string_of_uint (N.to_uint (Z.to_N rounded))) in
  let ip := substring 0 (String.length ds - k) ds in
  let fp := substring (String.length ds - k) k ds in
  (if (n <? 0)%Z then "-" else "") ++ ip
  ++ (if (k =? 0)%nat then "" else "." ++ fp).

Definition is_lower (c : ascii) : bool := (97 <=? code c)%nat && (code c <=? 122)%nat.
Definition is_upper (c : ascii) : bool := (65 <=? code c)%nat && (code c <=? 90)%nat.
Definition to_upper (c : ascii) : ascii := ascii_of_nat (code c - 32).
Definition to_lower (c : ascii) : ascii := ascii_of_nat (code c + 32).

(** [s.title()] on the letters a-z and A-Z (the benchmark names are such) *)
Fixpoint title_from (prev_cased : bool) (s : string) : string :=
  match s with
  | EmptyString => EmptyString
  | String c s' =>
      if is_lower c then String (if prev_cased then c else to_upper c) (title_from true s')
      else if is_upper c then String (if prev_cased then to_lower c else c) (title_from true s')
      else String c (title_from false s')
  end.

Definition title (s : string) : string := title_from false s.

(** ** Output

    What the program writes, in order.  A call of [print] or of
    [console.print] on a string is a [Printed]; a Rich table or panel is kept
    as a structure.  A [Text(s, style=st)] cell is written [[st]s[/st]].
    The pictographs of the source's messages are left out of the strings;
    the check mark and the cross of the progress lines are written [ok]
    and [x].
    [Header] and [SystemInfo] stand for what [_print_header] and
    [_print_system_info] write. *)

Inductive event : Type :=
| Header
| SystemInfo
| Printed (s : string)
| Spinner (s : string)
| Table (title_ : string) (rows : list (list string))
| Panel (title_ : string) (body : string).

Definition styled (st s : string) : string := "[" ++ st ++ "]" ++ s ++ "[/" ++ st ++ "]".

Definition nl : string := String newline EmptyString.

(** ** Aggregation and report: [_display_results] *)

(** an element of [results_data] *)
Record measurement : Type := mkMeasurement {
  name : string;
  mflops : Q;
  gflops : Q;
  duration : Q;
  details : list Q
}.

(** the loop that looks for the benchmark named [basic] *)
Fixpoint find_basic (results_data : list measurement) : option Q :=
  match results_data with
  | [] => None
  | r :: rest => if String.eqb (name r) "basic" then Some (mflops r) else find_basic rest
  end.

(** truth value of [baseline_mflops]: [None] and zero are false *)
Definition truthy (b : option Q) : bool :=
  match b with
  | None => false
  | Some x => negb (Qeq_bool x 0)
  end.

(** [baseline_mflops] after the two statements that set it (the same in
    both rendering branches) *)
Definition baseline_mflops (results_data : list measurement) : option Q :=
  let b := find_basic results_data in
  if negb (truthy b) then
    match results_data with
    | r :: rest => Some (min_of (mflops r) (map mflops rest))
    | [] => b
    end
  else b.

(** [max(results_data, key=lambda x: x["mflops"])] on a non-empty list *)
Definition max_result (r : measurement) (rest : list measurement) : measurement :=
  max_by_key mflops r rest.

(** the [perf] cell *)
Definition perf_cell (r : measurement) : string :=
  if Qle_bool 1 (gflops r) then format_f 2 (gflops r) ++ " GFLOPS"
  else format_f 0 (mflops r) ++ " MFLOPS".

Definition perf_style (r : measurement) : string :=
  if Qle_bool 1 (gflops r) then "bold green"
  else if Qlt_bool 1000 (mflops r) then "green" else "yellow".

(** the [relative] cell: the division is reached only with a baseline that
    is neither [None] nor zero *)
Definition relative_cell (baseline : option Q) (r : measurement) : string :=
  match baseline with
  | Some b => if truthy baseline then format_f 1 (mflops r / b) ++ "x" else "N/A"
  | None => "N/A"
  end.

Definition duration_cell (r : measurement) : string := format_f 1 (duration r) ++ "s".

Definition rich_row (baseline : option Q) (r : measurement) : list string :=
  [ title (name r); styled (perf_style r) (perf_cell r);
    relative_cell baseline r; duration_cell r ].

Definition plain_row (baseline : option Q) (r : measurement) : string :=
  ljust 20 (title (name r)) ++ " " ++ ljust 20 (perf_cell r) ++ " "
  ++ ljust 15 (relative_cell baseline r) ++ " " ++ ljust 10 (duration_cell r).

(** the unguarded quotient inside the Rich summary panel *)
Definition speed_improvement (baseline : option Q) (best : measurement) : result string :=
  match baseline with
  | Some b => q <- py_div (mflops best) b ;; Ok (format_f 1 q)
  | None => Raise (OtherError "unsupported operand type(s) for /")
  end.

(** [_display_results]: the events written and the exception that ended it,
    if any *)
Definition _display_results (rich : bool) (results_data : list measurement)
    : list event * option exn :=
  match results_data with
  | [] => ([], None)
  | r0 :: rest =>
      let baseline := baseline_mflops results_data in
      let best := max_result r0 rest in
      if rich then
        let table := Table "Benchmark Results" (map (rich_row baseline) results_data) in
        match speed_improvement baseline best with
        | Ok speed =>
            ([ table;
               Panel "Summary"
                 ("Peak Performance: [bold green]" ++ format_f 2 (gflops best)
                  ++ " GFLOPS[/bold green]" ++ nl
                  ++ "Best Configuration: [cyan]" ++ title (name best) ++ "[/cyan]" ++ nl
                  ++ "Speed Improvement: [yellow]" ++ speed
                  ++ "x over baseline[/yellow]") ], None)
        | Raise e => ([table], Some e)
        end
      else
        ([ Printed (nl ++ "=== Benchmark Results ===");
           Printed (ljust 20 "Benchmark" ++ " " ++ ljust 20 "Performance" ++ " "
                  ++ ljust 15 "Relative" ++ " " ++ ljust 10 "Duration");
           Printed (replicate 65 "-") ]
         ++ map (fun r => Printed (plain_row baseline r)) results_data
         ++ [ Printed (nl ++ "Peak Performance: " ++ format_f 2 (gflops best) ++ " GFLOPS");
              Printed ("Best Configuration: " ++ title (name best)) ],
         None)%list
  end.

(** ** The runner object *)

(** [self]: [results] is set to [{}] by [__init__]; [capabilities] is kept
    to its ["benchmarks"] entry, the other entries feed [SystemInfo] only *)
Record BenchmarkRunner : Type := mkRunner {
  results : list (string * run_result);
  capabilities_benchmarks : list (string * bench_info)
}.

Definition __init__ (w : world) : BenchmarkRunner :=
  mkRunner [] (_detect_benchmarks w).

Definition status_text (rich : bool) (info : bench_info) : string :=
  if available info && executable info then
    (if rich then "[green]Ready[/green]" else "Ready")
  else if available info then
    (if rich then "[yellow]Not executable[/yellow]" else "Not executable")
  else (if rich then "[red]Missing[/red]" else "Missing").

Definition description (n : string) : string :=
  if String.eqb n "basic" then "Single-threaded scalar operations"
  else if String.eqb n "vectorized" then "Multi-threaded + AVX2 vectorization"
  else if String.eqb n "gpu" then "GPU/OpenCL compute (if available)"
  else "".

Definition _print_benchmark_status (rich : bool) (self : BenchmarkRunner) : list event :=
  if rich then
    [ Table "Available Benchmarks"
        (map (fun ni : string * bench_info =>
                [ title (fst ni); status_text rich (snd ni); description (fst ni) ])
             (capabilities_benchmarks self)) ]
  else
    Printed (nl ++ "=== Available Benchmarks ===")
    :: map (fun ni : string * bench_info =>
              Printed ("  " ++ title (fst ni) ++ ": " ++ status_text rich (snd ni)
                     ++ " - " ++ description (fst ni)))
           (capabilities_benchmarks self).

(** [_display_detailed_output]: it reads [self.results] *)
Definition _display_detailed_output (rich : bool) (self : BenchmarkRunner) : list event :=
  ([ Printed (nl ++ replicate 60 "=");
     Printed (if rich then "[bold]Detailed Benchmark Output:[/bold]"
            else "Detailed Benchmark Output:");
     Printed (replicate 60 "=") ]
   ++ flat_map (fun nr : string * run_result =>
        match snd nr with
        | Succeeded r =>
            if rich then [ Panel (title (fst nr) ++ " Benchmark") (output r) ]
            else [ Printed (nl ++ "--- " ++ title (fst nr) ++ " Benchmark ---");
                   Printed (output r) ]
        | Failed _ _ => []
        end) (results self))%list.

(** the list comprehension that keeps the runnable benchmarks *)
Definition available_benchmarks (self : BenchmarkRunner) : list (string * bench_info) :=
  filter (fun ni : string * bench_info => available (snd ni) && executable (snd ni))
         (capabilities_benchmarks self).

(** one turn of the loop over [available_benchmarks]: the events written
    and the measurement appended to [results_data], if any *)
Definition run_one (w : world) (verbose : bool) (ni : string * bench_info)
    : list event * list measurement :=
  let benchmark_name := fst ni in
  let rich := RICH_AVAILABLE w in
  let announce :=
    if rich then Spinner ("[bold green]Running " ++ benchmark_name ++ " benchmark...")
    else Printed ("Running " ++ benchmark_name ++ " benchmark...") in
  match _run_benchmark benchmark_name (path (snd ni)) (spawn w (path (snd ni))) with
  | Succeeded r =>
      ((announce ::
        (if verbose then
           [ Printed ((if rich then "[green]ok[/green] " else "ok ") ++ benchmark_name
                    ++ " completed in " ++ format_f 2 (run_duration r) ++ "s") ]
         else []))%list,
       [ mkMeasurement benchmark_name (max_mflops r) (max_gflops r)
                       (run_duration r) (mflops_values r) ])
  | Failed err _ =>
      ([ announce;
         Printed ((if rich then "[red]x[/red] " else "x ") ++ benchmark_name
                ++ " failed: " ++ err) ],
       [])
  end.

Fixpoint run_all (w : world) (verbose : bool) (l : list (string * bench_info))
    : list event * list measurement :=
  match l with
  | [] => ([], [])
  | ni :: rest =>
      let '(ev1, rd1) := run_one w verbose ni in
      let '(ev2, rd2) := run_all w verbose rest in
      ((ev1 ++ ev2)%list, (rd1 ++ rd2)%list)
  end.

(** [results_data] as [run_benchmarks] hands it to [_display_results] *)
Definition results_data (w : world) (self : BenchmarkRunner) : list measurement :=
  snd (run_all w false (available_benchmarks self)).

(** [run_benchmarks]: the events written and the exception that left it,
    if any.  No statement of it assigns [self.results]. *)
Definition run_benchmarks (w : world) (self : BenchmarkRunner) (verbose : bool)
    : list event * option exn :=
  let rich := RICH_AVAILABLE w in
  let intro := ([Header; SystemInfo] ++ _print_benchmark_status rich self)%list in
  match available_benchmarks self with
  | [] =>
      ((intro ++
        [ Printed (nl ++ (if rich then "[red]No benchmarks available to run![/red]"
                        else "No benchmarks available to run!"));
          Printed (if rich then "[yellow]Run 'make' to build benchmarks first.[/yellow]"
                 else "Run 'make' to build benchmarks first.") ])%list, None)
  | avail =>
      let '(ev, rd) := run_all w verbose avail in
      let '(ev_report, raised) := _display_results rich rd in
      let before :=
        (intro ++ [ Printed (nl ++ "Running " ++ str_of_nat (List.length avail)
                           ++ " benchmark(s)..." ++ nl) ]
         ++ ev ++ ev_report)%list in
      match raised with
      | Some e => (before, Some e)
      | None =>
          if verbose then ((before ++ _display_detailed_output rich self)%list, None)
          else (before, None)
      end
  end.

Definition join_with (sep : string) (l : list string) : string :=
  match l with
  | [] => ""
  | x :: rest => fold_left (fun acc y => acc ++ sep ++ y) rest x
  end.

Definition check_dependencies (w : world) : list event :=
  let missing :=
    ((if RICH_AVAILABLE w then [] else ["rich"])
     ++ (if CLICK_AVAILABLE w then [] else ["click"])
     ++ (if PSUTIL_AVAILABLE w then [] else ["psutil"]))%list in
  match missing with
  | [] => []
  | _ =>
      [ Printed "Some optional Python packages are missing for enhanced output:";
        Printed ("   Missing: " ++ join_with ", " missing);
        Printed ("   Install with: pip3 install --user " ++ join_with " " missing);
        Printed ("   Continuing with basic output..." ++ nl) ]
  end.

(** [main(verbose, build)] *)
Definition main (w0 : world) (verbose build : bool) : list event * option exn :=
  let w := chdir w0 (script_dir w0) in
  let deps := check_dependencies w in
  if build && negb (fst (make_all w) =? 0)%Z then
    ((deps ++ [ Printed "Building benchmarks...";
                Printed ("Build failed: " ++ snd (make_all w)) ])%list, None)
  else
    let built :=
      if build then [ Printed "Building benchmarks..."; Printed ("Build successful!" ++ nl) ]
      else [] in
    let runner := __init__ w in
    let '(ev, raised) := run_benchmarks w runner verbose in
    ((deps ++ built ++ ev)%list, raised).

(** ** Vocabulary of the statements *)

(** [v] is the greatest element of [l] *)
Definition is_max (v : Q) (l : list Q) : Prop :=
  In v l /\ Forall (fun x => (x <= v)%Q) l.

(** [v] is the least element of [l] *)
Definition is_min (v : Q) (l : list Q) : Prop :=
  In v l /\ Forall (fun x => (v <= x)%Q) l.

(** every sample is at least zero *)
Definition nonneg (l : list Q) : Prop := Forall (fun x => (0 <= x)%Q) l.

(** [l1] is [l2] with some elements left out, the order kept *)
Inductive subseq {A : Type} : list A -> list A -> Prop :=
| subseq_nil : subseq [] []
| subseq_skip (x : A) (l1 l2 : list A) : subseq l1 l2 -> subseq l1 (x :: l2)
| subseq_take (x : A) (l1 l2 : list A) : subseq l1 l2 -> subseq (x :: l1) (x :: l2).

(** the measurement named [basic], if there is one *)
Definition basic_measurement (rd : list measurement) : option measurement :=
  find (fun r => String.eqb (name r) "basic") rd.

(** first character of [s] is in the class [[\d.]] *)
Definition starts_with_numchar (s : string) : bool :=
  match s with
  | String c _ => is_numchar c
  | EmptyString => false
  end.

(** ** Concrete worlds *)

Definition runnable : fs_entry := mkEntry true true.

(** a directory that may be searched: not a regular file, [X_OK] granted *)
Definition searchable_directory : fs_entry := mkEntry false true.

(** [basic] and [vectorized] are runnable and [gpu] is missing; [basic]
    prints [MFLOPS: 800] and [vectorized] prints [4.2 GFLOPS] *)
Definition scenario_world (rich : bool) : world :=
  mkWorld "/bench" "/bench"
    (fun p =>
       if String.eqb p "/bench/basic_benchmark" then Some runnable
       else if String.eqb p "/bench/vectorized_benchmark" then Some runnable
       else None)
    (fun p =>
       if String.eqb p "/bench/basic_benchmark"
       then Completed 0 "MFLOPS: 800" "" 10 12.5
       else if String.eqb p "/bench/vectorized_benchmark"
       then Completed 0 "4.2 GFLOPS" "" 20 21.25
       else Raised (OtherError "[Errno 2] No such file or directory"))
    (0%Z, "") rich true true.

(** only [basic] is there; it exits with 0 after printing a text without
    any tag *)
Definition untagged_world (rich : bool) : world :=
  mkWorld "/bench" "/bench"
    (fun p => if String.eqb p "/bench/basic_benchmark" then Some runnable else None)
    (fun p => Completed 0 "done" "" 10 11)
    (0%Z, "") rich true true.

(** [basic_benchmark] is a directory *)
Definition directory_world : world :=
  mkWorld "/bench" "/bench"
    (fun p => if String.eqb p "/bench/basic_benchmark" then Some searchable_directory
              else None)
    (fun p => Raised (OtherError "[Errno 13] Permission denied"))
    (0%Z, "") false true true.

(** a successful run whose second line shows a dotted filler before the unit *)
Definition filler_stdout : string :=
  "MFLOPS: 800" ++ nl ++ "Measuring ... GFLOPS".

(** a successful run with the MFLOPS samples 500 and 1500 *)
Definition two_samples_stdout : string :=
  "MFLOPS: 500" ++ nl ++ "MFLOPS: 1500".

(** ** Capability prober: [_get_cpu_info]

    What the prober reads of the machine: the lines of [/proc/cpuinfo] as
    the iteration over the open file yields them ([None] when [open]
    raises), [os.cpu_count()] and the two calls of [psutil.cpu_count]. *)

Record host : Type := mkHost {
  cpuinfo : option (list string);
  os_cpu_count : option nat;
  psutil_physical : result (option nat);   (* [cpu_count(logical=False)] *)
  psutil_logical : result (option nat)     (* [cpu_count(logical=True)] *)
}.

Record cpu_info : Type := mkCpuInfo {
  model : string;
  cores : option nat;
  threads : option nat
}.

(** [s.split(sep)] for a one-character separator *)
Fixpoint split_on (sep : ascii) (s : string) : list string :=
  match s with
  | EmptyString => [EmptyString]
  | String c s' =>
      if Ascii.eqb c sep then EmptyString :: split_on sep s'
      else match split_on sep s' with
           | l :: ls => String c l :: ls
           | [] => [String c EmptyString]
           end
  end.

Fixpoint lstrip (s : string) : string :=
  match s with
  | EmptyString => EmptyString
  | String c s' => if is_space c then lstrip s' else s
  end.

Fixpoint rstrip (s : string) : string :=
  match s with
  | EmptyString => EmptyString
  | String c s' =>
      match rstrip s' with
      | EmptyString => if is_space c then EmptyString else String c EmptyString
      | r => String c r
      end
  end.

(** [s.strip()] *)
Definition strip (s : string) : string := rstrip (lstrip s).

(** [os.cpu_count() or 1] *)
Definition cpu_count_or_1 (h : host) : nat :=
  match os_cpu_count h with
  | Some n => if (n =? 0)%nat then 1%nat else n
  | None => 1%nat
  end.

(** the [try] block over [/proc/cpuinfo]: the first line that contains
    [model name] decides; an [IndexError] of [split(':')[1]] is swallowed
    with everything else and leaves the default *)
Definition read_cpu_model (h : host) : string :=
  match cpuinfo h with
  | None => "Unknown"
  | Some lines =>
      match find (fun line => contains "model name" line) lines with
      | None => "Unknown"
      | Some line =>
          match split_on ":" line with
          | _ :: p :: _ => strip p
          | _ => "Unknown"
          end
      end
  end.

Definition _get_cpu_info (w : world) (h : host) : cpu_info :=
  let info := mkCpuInfo (read_cpu_model h) (Some (cpu_count_or_1 h))
                        (Some (cpu_count_or_1 h)) in
  if PSUTIL_AVAILABLE w then
    match psutil_physical h with
    | Ok c =>
        match psutil_logical h with
        | Ok t => mkCpuInfo (model info) c t
        | Raise _ => mkCpuInfo (model info) c (threads info)
        end
    | Raise _ => info
    end
  else info.

(** ** Further vocabulary *)

(** every character of [s] is in the class *)
Fixpoint all_in (cls : ascii -> bool) (s : string) : bool :=
  match s with
  | EmptyString => true
  | String c s' => cls c && all_in cls s'
  end.

Definition not_numchar (c : ascii) : bool := negb (is_numchar c).

Definition not_colon (c : ascii) : bool := negb (Ascii.eqb c ":").

(** the same world with other child processes *)
Definition with_spawn (w : world) (sp : string -> run_outcome) : world :=
  mkWorld (cwd w) (script_dir w) (fs w) sp (make_all w)
          (RICH_AVAILABLE w) (CLICK_AVAILABLE w) (PSUTIL_AVAILABLE w).

(** the process ended with exit code 0 and every token found in its output
    is a number *)
Definition exit_ok_and_parsed (o : run_outcome) : bool :=
  match o with
  | Completed returncode stdout _ _ _ =>
      (returncode =? 0)%Z
      && match parse_output stdout with Ok _ => true | Raise _ => false end
  | _ => false
  end.


(** a machine whose [/proc/cpuinfo] names the processor with a colon in it *)
Definition sample_host : host :=
  mkHost (Some [ "processor" ++ String (ascii_of_nat 9) ": 0" ++ nl;
                 "model name" ++ String (ascii_of_nat 9) ": Vendor CPU: 8 core" ++ nl;
                 "model name" ++ String (ascii_of_nat 9) ": Other" ++ nl ])
         (Some 8%nat) (Ok (Some 4%nat)) (Ok (Some 8%nat)).


(** first character of [s] is in the class *)
Definition head_in (cls : ascii -> bool) (s : string) : bool :=
  match s with
  | String c _ => cls c
  | EmptyString => false
  end.

(** * Properties *)

Local Open Scope Q_scope.
Local Open Scope list_scope.

(** ** Order on numbers *)

Lemma Qlt_bool_true (x y : Q) : Qlt_bool x y = true <-> x < y.
Proof.
  unfold Qlt_bool. rewrite negb_true_iff. split; intro H.
  - apply Qnot_le_lt. intro Hle. apply Qle_bool_iff in Hle. congruence.
  - destruct (Qle_bool y x) eqn:E; [|reflexivity].
    apply Qle_bool_iff in E. exfalso. exact (Qlt_not_le _ _ H E).
Qed.

Lemma Qlt_bool_false (x y : Q) : Qlt_bool x y = false <-> y <= x.
Proof.
  unfold Qlt_bool. rewrite negb_false_iff. apply Qle_bool_iff.
Qed.

Section Extremum.

Context {A : Type}.
Variable key : A -> Q.

(** the list splits around the chosen item: strictly smaller keys before
    it, keys not greater after it *)
Lemma max_by_key_split (l : list A) : forall cur : A,
  exists l1 l2,
    cur :: l = l1 ++ max_by_key key cur l :: l2
    /\ Forall (fun r => key r < key (max_by_key key cur l)) l1
    /\ Forall (fun r => key r <= key (max_by_key key cur l)) l2.
Proof.
  induction l as [|x l IH]; intro cur; simpl.
  - exists [], []. repeat split; constructor.
  - destruct (Qlt_bool (key cur) (key x)) eqn:E.
    + apply Qlt_bool_true in E.
      destruct (IH x) as (l1 & l2 & Heq & H1 & H2).
      exists (cur :: l1), l2. split; [simpl; congruence|]. split; [|exact H2].
      constructor; [|exact H1].
      assert (Hx : key x <= key (max_by_key key x l)).
      { destruct l1 as [|y l1'].
        - simpl in Heq. injection Heq as Hy _. rewrite <- Hy. apply Qle_refl.
        - simpl in Heq. injection Heq as Hy _. subst y.
          apply Qlt_le_weak. now inversion H1. }
      eapply Qlt_le_trans; eassumption.
    + apply Qlt_bool_false in E.
      destruct (IH cur) as (l1 & l2 & Heq & H1 & H2).
      destruct l1 as [|y l1'].
      * simpl in Heq. injection Heq as Hc Hl.
        exists [], (x :: l2). split; [simpl; congruence|].
        split; [constructor|]. constructor; [|exact H2]. now rewrite <- Hc.
      * simpl in Heq. injection Heq as Hc Hl. subst y.
        exists (cur :: x :: l1'), l2. split; [simpl; congruence|].
        split; [|exact H2].
        inversion H1 as [|? ? Hcur Hrest]; subst.
        constructor; [exact Hcur|]. constructor; [|exact Hrest].
        eapply Qle_lt_trans; eassumption.
Qed.

Lemma max_by_key_In (l : list A) (cur : A) : In (max_by_key key cur l) (cur :: l).
Proof.
  destruct (max_by_key_split l cur) as (l1 & l2 & Heq & _).
  rewrite Heq. apply in_elt.
Qed.

Lemma max_by_key_upper (l : list A) (cur x : A) :
  In x (cur :: l) -> key x <= key (max_by_key key cur l).
Proof.
  destruct (max_by_key_split l cur) as (l1 & l2 & Heq & H1 & H2).
  rewrite Heq. intro Hin. apply in_app_or in Hin.
  rewrite Forall_forall in H1, H2.
  destruct Hin as [Hin|[Hin|Hin]].
  - apply Qlt_le_weak. now apply H1.
  - subst x. apply Qle_refl.
  - now apply H2.
Qed.

Lemma min_by_key_In (l : list A) : forall cur : A, In (min_by_key key cur l) (cur :: l).
Proof.
  induction l as [|x l IH]; intro cur; simpl.
  - now left.
  - destruct (Qlt_bool (key x) (key cur)).
    + right. apply IH.
    + destruct (IH cur) as [H|H]; [now left | right; now right].
Qed.

Lemma min_by_key_le_cur (l : list A) : forall cur : A,
  key (min_by_key key cur l) <= key cur.
Proof.
  induction l as [|x l IH]; intro cur; simpl.
  - apply Qle_refl.
  - destruct (Qlt_bool (key x) (key cur)) eqn:E.
    + apply Qlt_bool_true in E. eapply Qle_trans; [apply IH|]. now apply Qlt_le_weak.
    + apply IH.
Qed.

Lemma min_by_key_lower (l : list A) : forall cur x : A,
  In x (cur :: l) -> key (min_by_key key cur l) <= key x.
Proof.
  induction l as [|y l IH]; intros cur x Hin; simpl.
  - destruct Hin as [->|[]]. apply Qle_refl.
  - destruct (Qlt_bool (key y) (key cur)) eqn:E.
    + apply Qlt_bool_true in E.
      destruct Hin as [->|[->|Hin]].
      * eapply Qle_trans; [apply min_by_key_le_cur|]. now apply Qlt_le_weak.
      * apply min_by_key_le_cur.
      * apply IH. now right.
    + apply Qlt_bool_false in E.
      destruct Hin as [->|[->|Hin]].
      * apply min_by_key_le_cur.
      * eapply Qle_trans; [apply min_by_key_le_cur|]. exact E.
      * apply IH. now right.
Qed.

End Extremum.

(** ** The parser produces non-negative samples *)

Lemma digits_value_nonneg (s : string) : forall acc : Z,
  (0 <= acc)%Z -> (0 <= digits_value s acc)%Z.
Proof.
  induction s as [|c s IH]; intros acc Hacc; cbn [digits_value]; [exact Hacc|].
  destruct (is_digit c); apply IH; [|exact Hacc].
  pose proof (Nat2Z.is_nonneg (code c - 48)). lia.
Qed.

Lemma py_float_nonneg (s : string) (v : Q) : py_float s = Ok v -> 0 <= v.
Proof.
  unfold py_float. destruct (_ && _)%bool; [|discriminate].
  intro H. injection H as <-.
  pose proof (digits_value_nonneg s 0 (Z.le_refl 0)) as Hd.
  unfold Qle. cbn [Qnum Qden]. rewrite Z.mul_0_l, Z.mul_1_r. exact Hd.
Qed.

Lemma append_sample_nonneg (tok : string) (m m' : list Q) :
  nonneg m -> (v <- py_float tok ;; Ok (m ++ [v])) = Ok m' -> nonneg m'.
Proof.
  intros Hm H. destruct (py_float tok) as [v|e] eqn:E; simpl in H; [|discriminate].
  injection H as <-. apply Forall_app. split; [exact Hm|].
  constructor; [|constructor]. eapply py_float_nonneg; eassumption.
Qed.

Lemma mflops_step_nonneg (line : string) (m m' : list Q) :
  nonneg m -> mflops_step line m = Ok m' -> nonneg m'.
Proof.
  unfold mflops_step. intros Hm H. destruct (search mflops_re line).
  - eapply append_sample_nonneg; eassumption.
  - now injection H as <-.
Qed.

Lemma gflops_step_nonneg (line : string) (g g' : list Q) :
  nonneg g -> gflops_step line g = Ok g' -> nonneg g'.
Proof.
  unfold gflops_step. intros Hg H. destruct (search gflops_re line).
  - eapply append_sample_nonneg; eassumption.
  - now injection H as <-.
Qed.

Lemma parse_lines_nonneg (lines : list string) : forall acc acc',
  nonneg (fst acc) -> nonneg (snd acc) ->
  parse_lines lines acc = Ok acc' ->
  nonneg (fst acc') /\ nonneg (snd acc').
Proof.
  induction lines as [|line rest IH]; intros acc acc' Hm Hg H; simpl in H.
  - injection H as <-. now split.
  - unfold parse_line in H.
    destruct (mflops_step line (fst acc)) as [m1|e] eqn:E1; simpl in H; [|discriminate].
    destruct (gflops_step line (snd acc)) as [g1|e] eqn:E2; simpl in H; [|discriminate].
    apply (IH (m1, g1) acc'); simpl; try exact H.
    + exact (mflops_step_nonneg line (fst acc) m1 Hm E1).
    + exact (gflops_step_nonneg line (snd acc) g1 Hg E2).
Qed.

Lemma peak_mflops_nonneg (m : list Q) : nonneg m -> 0 <= peak_mflops m.
Proof.
  intro Hm. destruct m as [|x m]; simpl; [apply Qle_refl|].
  unfold nonneg in Hm. rewrite Forall_forall in Hm. apply Hm.
  unfold max_of. apply (max_by_key_In (fun v => v)).
Qed.

Lemma run_benchmark_success (n p : string) (o : run_outcome) (r : run_ok) :
  _run_benchmark n p o = Succeeded r ->
  exists stdout stderr t0 t1,
    o = Completed 0 stdout stderr t0 t1
    /\ parse_output stdout = Ok (mflops_values r, gflops_values r)
    /\ output r = stdout
    /\ max_mflops r = peak_mflops (mflops_values r)
    /\ max_gflops r = peak_gflops (mflops_values r) (gflops_values r)
    /\ run_duration r = t1 - t0.
Proof.
  destruct o as [rc out err t0 t1| |e]; simpl; try discriminate.
  destruct (rc =? 0)%Z eqn:Erc; simpl; [|discriminate].
  apply Z.eqb_eq in Erc. subst rc.
  destruct (parse_output out) as [[m g]|e] eqn:Ep; [|discriminate].
  intro H. injection H as <-. simpl.
  exists out, err, t0, t1. repeat split; try reflexivity. exact Ep.
Qed.

Lemma run_one_nonneg (w : world) (verbose : bool) (ni : string * bench_info) :
  Forall (fun r => 0 <= mflops r) (snd (run_one w verbose ni)).
Proof.
  unfold run_one.
  destruct (_run_benchmark _ _ _) as [r|err d] eqn:E; simpl; [|constructor].
  constructor; [|constructor]. simpl.
  apply run_benchmark_success in E.
  destruct E as (out & err & t0 & t1 & _ & Hp & _ & Hm & _).
  rewrite Hm. apply peak_mflops_nonneg.
  unfold parse_output in Hp.
  apply (parse_lines_nonneg _ ([], []) _) in Hp; simpl; try constructor.
  apply Hp.
Qed.

Lemma run_all_nonneg (w : world) (verbose : bool) (l : list (string * bench_info)) :
  Forall (fun r => 0 <= mflops r) (snd (run_all w verbose l)).
Proof.
  induction l as [|ni rest IH]; simpl; [constructor|].
  pose proof (run_one_nonneg w verbose ni) as H1.
  destruct (run_one w verbose ni) as [ev1 rd1].
  destruct (run_all w verbose rest) as [ev2 rd2]. simpl in *.
  apply Forall_app. now split.
Qed.



Lemma find_basic_find (rd : list measurement) :
  find_basic rd = option_map mflops (basic_measurement rd).
Proof.
  unfold basic_measurement.
  induction rd as [|r rest IH]; simpl; [reflexivity|].
  destruct (String.eqb (name r) "basic"); [reflexivity|exact IH].
Qed.

(** ** Baseline *)

Lemma baseline_of_nonneg (r0 : measurement) (rest : list measurement) :
  Forall (fun r => 0 <= mflops r) (r0 :: rest) ->
  exists b, baseline_mflops (r0 :: rest) = Some b /\
    match basic_measurement (r0 :: rest) with
    | Some r => b == mflops r
    | None => is_min b (map mflops (r0 :: rest))
    end.
Proof.
  intro Hnn. unfold baseline_mflops. rewrite find_basic_find.
  assert (Hmin : is_min (min_of (mflops r0) (map mflops rest)) (map mflops (r0 :: rest))).
  { split.
    - apply (min_by_key_In (fun v => v)).
    - apply Forall_forall. intros x Hx. now apply (min_by_key_lower (fun v => v)). }
  destruct (basic_measurement (r0 :: rest)) as [r|] eqn:Eb; simpl.
  - destruct (Qeq_bool (mflops r) 0) eqn:Ez; simpl.
    + eexists. split; [reflexivity|].
      apply Qeq_bool_iff in Ez. rewrite Ez.
      destruct Hmin as [Hin Hlow].
      apply Qle_antisym.
      * rewrite <- Ez. rewrite Forall_forall in Hlow. apply Hlow.
        apply in_map. unfold basic_measurement in Eb. now apply find_some in Eb.
      * apply in_map_iff in Hin. destruct Hin as (r' & Hr' & Hin).
        rewrite <- Hr'. rewrite Forall_forall in Hnn. now apply Hnn.
    + eexists. split; [reflexivity|]. apply Qeq_refl.
  - eexists. split; [reflexivity|]. exact Hmin.
Qed.

(** C3: over the measurements that [run_benchmarks] collects, the baseline
    is the peak MFLOPS of the measurement named [basic] when there is one,
    and the least peak MFLOPS of all otherwise; it is undefined only for an
    empty collection. *)
Theorem baseline_is_basic_or_minimum (w : world) (self : BenchmarkRunner) :
  match results_data w self with
  | [] => baseline_mflops (results_data w self) = None
  | _ :: _ =>
      exists b, baseline_mflops (results_data w self) = Some b /\
        match basic_measurement (results_data w self) with
        | Some r => b == mflops r
        | None => is_min b (map mflops (results_data w self))
        end
  end.
Proof.
  pose proof (run_all_nonneg w false (available_benchmarks self)) as Hnn.
  fold (results_data w self) in Hnn.
  destruct (results_data w self) as [|r0 rest]; [reflexivity|].
  now apply baseline_of_nonneg.
Qed.

(** ** Peaks of a successful run *)

Lemma max_of_is_max (x : Q) (l : list Q) : is_max (max_of x l) (x :: l).
Proof.
  split.
  - apply (max_by_key_In (fun v => v)).
  - apply Forall_forall. intros y Hy. now apply (max_by_key_upper (fun v => v)).
Qed.

(** C4: for the result of a successful run, [max_gflops] is the greatest
    GFLOPS sample when there is one, else the greatest MFLOPS sample divided
    by 1000 when there is one, else 0; [max_mflops] is the greatest MFLOPS
    sample, or 0 without samples.  With no GFLOPS sample and the MFLOPS
    samples 500 and 1500 the GFLOPS peak is 1.5. *)
Theorem peaks_of_successful_run (n p : string) (o : run_outcome) (r : run_ok) :
  _run_benchmark n p o = Succeeded r ->
  match mflops_values r with
  | [] => max_mflops r = 0
  | _ :: _ => is_max (max_mflops r) (mflops_values r)
  end
  /\ match gflops_values r with
     | _ :: _ => is_max (max_gflops r) (gflops_values r)
     | [] =>
         match mflops_values r with
         | _ :: _ => exists v, is_max v (mflops_values r) /\ max_gflops r = v / 1000
         | [] => max_gflops r = 0
         end
     end
  /\ (gflops_values r = [] -> mflops_values r = [500; 1500] -> max_gflops r == 1.5).
Proof.
  intro H. apply run_benchmark_success in H.
  destruct H as (out & err & t0 & t1 & _ & _ & _ & Hm & Hg & _).
  rewrite Hm, Hg. clear Hm Hg.
  destruct (mflops_values r) as [|x m], (gflops_values r) as [|y g]; simpl;
    repeat split;
    try apply max_of_is_max; try reflexivity; try discriminate.
  - exists (max_of x m). split; [apply max_of_is_max | reflexivity].
  - intros _ E. injection E as -> ->. vm_compute. reflexivity.
Qed.

(** a run printing the samples 500 and 1500 *)
Lemma peaks_of_successful_run_witness :
  _run_benchmark "basic" "/bench/basic_benchmark"
    (Completed 0 two_samples_stdout "" 10 11)
  = Succeeded (mkRunOk two_samples_stdout [500; 1500] [] 1500 (1500 / 1000) (11 - 10))
  /\ max_gflops (mkRunOk two_samples_stdout [500; 1500] [] 1500 (1500 / 1000) (11 - 10))
     == 1.5.
Proof.
  assert (H : _run_benchmark "basic" "/bench/basic_benchmark"
                (Completed 0 two_samples_stdout "" 10 11)
              = Succeeded (mkRunOk two_samples_stdout [500; 1500] [] 1500
                                   (1500 / 1000) (11 - 10)))
    by (vm_compute; reflexivity).
  split; [exact H|].
  destruct (peaks_of_successful_run _ _ _ _ H) as (_ & _ & Hpeak).
  apply Hpeak; reflexivity.
Defined.

(** ** Timeout *)

(** C5: a run that exceeds the timeout gives a failed result whose error is
    the fixed timeout message and whose duration is the constant 120,
    whatever was captured before the process was stopped. *)
Theorem timeout_gives_fixed_failure (n p partial_stdout : string) :
  _run_benchmark n p (TimeoutExpired partial_stdout)
  = Failed "Benchmark timed out after 120 seconds" 120.
Proof. reflexivity. Qed.

(** ** Best measurement *)

Lemma run_one_names (w : world) (verbose : bool) (ni : string * bench_info) :
  snd (run_one w verbose ni) = []
  \/ exists m, snd (run_one w verbose ni) = [m] /\ name m = fst ni.
Proof.
  unfold run_one. destruct (_run_benchmark _ _ _) as [r|err d]; simpl.
  - right. eexists. split; reflexivity.
  - now left.
Qed.

Lemma run_all_names (w : world) (verbose : bool) (f : string * bench_info -> bool)
    (l : list (string * bench_info)) :
  subseq (map name (snd (run_all w verbose (filter f l)))) (map fst l).
Proof.
  induction l as [|ni rest IH]; simpl; [constructor|].
  destruct (f ni); [|now constructor]. simpl.
  destruct (run_one_names w verbose ni) as [H|(m & H & Hn)];
    destruct (run_one w verbose ni) as [ev1 rd1];
    destruct (run_all w verbose (filter f rest)) as [ev2 rd2];
    simpl in *; subst rd1; simpl.
  - now constructor.
  - rewrite Hn. now constructor.
Qed.

(** C6: the best measurement of a non-empty collection has the greatest
    peak MFLOPS, and among equals it is the first in processing order:
    everything before it is strictly smaller.  The processing order is that
    of detection: basic, vectorized, gpu. *)
Theorem best_is_first_maximum :
  (forall (r0 : measurement) (rest : list measurement),
     exists l1 l2,
       r0 :: rest = l1 ++ max_result r0 rest :: l2
       /\ Forall (fun r => mflops r < mflops (max_result r0 rest)) l1
       /\ Forall (fun r => mflops r <= mflops (max_result r0 rest)) l2)
  /\ (forall w : world,
        subseq (map name (results_data w (__init__ w)))
               ["basic"; "vectorized"; "gpu"]%string).
Proof.
  split.
  - intros r0 rest. apply (max_by_key_split mflops).
  - intro w. apply (run_all_names w false _ (_detect_benchmarks w)).
Qed.

(** ** End-to-end scenario *)

Lemma detect_benchmarks_scenario (w : world) :
  fs w (resolve w "basic_benchmark") = Some runnable ->
  fs w (resolve w "vectorized_benchmark") = Some runnable ->
  fs w (resolve w "gpu_benchmark") = None ->
  available_benchmarks (__init__ w)
  = [ ("basic"%string, mkInfo true (resolve w "basic_benchmark") true);
      ("vectorized"%string, mkInfo true (resolve w "vectorized_benchmark") true) ].
Proof.
  intros Hb Hv Hg.
  unfold available_benchmarks, __init__, _detect_benchmarks, benchmark_files.
  cbn [capabilities_benchmarks map fst snd].
  unfold path_exists, path_is_file, os_access_X_OK.
  rewrite Hb, Hv, Hg. reflexivity.
Qed.

(** C1 (amended): in the scenario the collected measurements are [basic]
    with 800 MFLOPS and [vectorized] with 0 MFLOPS and 4.2 GFLOPS; the
    baseline is 800, [vectorized] is shown as [4.20 GFLOPS] with the
    relative factor [0.0x], and the best measurement is [basic]. *)
Theorem scenario_report (w : world) (err1 err2 : string) (s1 e1 s2 e2 : Q) :
  fs w (resolve w "basic_benchmark") = Some runnable ->
  fs w (resolve w "vectorized_benchmark") = Some runnable ->
  fs w (resolve w "gpu_benchmark") = None ->
  spawn w (resolve w "basic_benchmark") = Completed 0 "MFLOPS: 800" err1 s1 e1 ->
  spawn w (resolve w "vectorized_benchmark") = Completed 0 "4.2 GFLOPS" err2 s2 e2 ->
  exists basic vec,
    results_data w (__init__ w) = [basic; vec]
    /\ name basic = "basic"%string /\ name vec = "vectorized"%string
    /\ mflops basic = 800 /\ mflops vec = 0 /\ gflops vec = 4.2
    /\ baseline_mflops [basic; vec] = Some 800
    /\ perf_cell basic = "800 MFLOPS"%string
    /\ perf_cell vec = "4.20 GFLOPS"%string
    /\ relative_cell (baseline_mflops [basic; vec]) vec = "0.0x"%string
    /\ max_result basic [vec] = basic.
Proof.
  intros Hb Hv Hg Sb Sv.
  unfold results_data. rewrite (detect_benchmarks_scenario w Hb Hv Hg).
  unfold run_all, run_one. cbn [fst snd path]. rewrite Sb, Sv.
  exists (mkMeasurement "basic" 800 (800 / 1000) (e1 - s1) [800]),
         (mkMeasurement "vectorized" 0 4.2 (e2 - s2) []).
  repeat split; reflexivity.
Qed.

(** the scenario with plain-text output *)
Lemma scenario_report_witness :
  fs (scenario_world false) (resolve (scenario_world false) "basic_benchmark") = Some runnable
  /\ fs (scenario_world false) (resolve (scenario_world false) "gpu_benchmark") = None
  /\ exists basic vec,
       results_data (scenario_world false) (__init__ (scenario_world false)) = [basic; vec]
       /\ name basic = "basic"%string /\ name vec = "vectorized"%string
       /\ mflops basic = 800 /\ mflops vec = 0 /\ gflops vec = 4.2
       /\ baseline_mflops [basic; vec] = Some 800
       /\ perf_cell basic = "800 MFLOPS"%string
       /\ perf_cell vec = "4.20 GFLOPS"%string
       /\ relative_cell (baseline_mflops [basic; vec]) vec = "0.0x"%string
       /\ max_result basic [vec] = basic.
Proof.
  split; [reflexivity|]. split; [reflexivity|].
  apply (scenario_report (scenario_world false) "" "" 10 12.5 20 21.25); reflexivity.
Defined.

(** C1 as stated fails in the scenario: the relative factor of
    [vectorized] is not [5.3x] and the best measurement is not
    [vectorized]. *)
Lemma scenario_claim_fails :
  ~ (exists basic vec,
       results_data (scenario_world false) (__init__ (scenario_world false)) = [basic; vec]
       /\ baseline_mflops [basic; vec] = Some 800
       /\ relative_cell (baseline_mflops [basic; vec]) vec = "5.3x"%string
       /\ name (max_result basic [vec]) = "vectorized"%string).
Proof.
  intros (basic & vec & Hrd & _ & _ & Hbest).
  vm_compute in Hrd. injection Hrd as <- <-.
  vm_compute in Hbest. discriminate.
Qed.

(** ** A malformed numeric token *)

(** C2 fails on the code: a line whose captured token is not a number
    ([...] before [GFLOPS]) makes [float] raise; the parse yields no sample
    sequences and the run, although it exited with 0 and printed a valid
    MFLOPS sample, is reported as failed. *)
Theorem malformed_token_raises :
  parse_output filler_stdout
  = Raise (ValueError "could not convert string to float: '...'")
  /\ forall (n p err : string) (t0 t1 : Q),
       _run_benchmark n p (Completed 0 filler_stdout err t0 t1)
       = Failed "could not convert string to float: '...'" 0.
Proof.
  assert (H : parse_output filler_stdout
              = Raise (ValueError "could not convert string to float: '...'"))
    by (vm_compute; reflexivity).
  split; [exact H|].
  intros n p err t0 t1. unfold _run_benchmark. cbn [Z.eqb negb].
  rewrite H. reflexivity.
Qed.

(** ** Zero baseline *)

Lemma baseline_some (r0 : measurement) (rest : list measurement) :
  exists b, baseline_mflops (r0 :: rest) = Some b
            /\ truthy (baseline_mflops (r0 :: rest)) = negb (Qeq_bool b 0).
Proof.
  unfold baseline_mflops.
  destruct (truthy (find_basic (r0 :: rest))) eqn:E; cbn [negb].
  - destruct (find_basic (r0 :: rest)) as [b|]; [|discriminate].
    exists b. split; reflexivity.
  - eexists. split; reflexivity.
Qed.

(** without a usable baseline every relative cell reads [N/A] *)
Lemma relative_cell_falsy (baseline : option Q) (r : measurement) :
  truthy baseline = false -> relative_cell baseline r = "N/A"%string.
Proof.
  unfold relative_cell. destruct baseline as [b|]; [|reflexivity].
  now intros ->.
Qed.

(** C7 fails on the code in the Rich branch: with a baseline of zero the
    rows show [N/A], but the summary panel divides by the baseline without
    the guard and [ZeroDivisionError] leaves [_display_results],
    [run_benchmarks] and [main]; the plain branch has no such quotient and
    returns. *)
Theorem rich_summary_divides_by_zero :
  main (untagged_world true) false false
  = ([ Header; SystemInfo;
       Table "Available Benchmarks"
         [ ["Basic"; "[green]Ready[/green]"; "Single-threaded scalar operations"];
           ["Vectorized"; "[red]Missing[/red]"; "Multi-threaded + AVX2 vectorization"];
           ["Gpu"; "[red]Missing[/red]"; "GPU/OpenCL compute (if available)"] ]%string;
       Printed (nl ++ "Running 1 benchmark(s)..." ++ nl)%string;
       Spinner "[bold green]Running basic benchmark...";
       Table "Benchmark Results"
         [ ["Basic"; "[yellow]0 MFLOPS[/yellow]"; "N/A"; "1.0s"] ]%string ],
     Some (ZeroDivisionError "division by zero"))
  /\ (forall (r0 : measurement) (rest : list measurement),
        snd (_display_results true (r0 :: rest))
        = if truthy (baseline_mflops (r0 :: rest)) then None
          else Some (ZeroDivisionError "division by zero"))
  /\ (forall rd : list measurement, snd (_display_results false rd) = None).
Proof.
  split; [vm_compute; reflexivity|]. split.
  - intros r0 rest. unfold _display_results.
    destruct (baseline_some r0 rest) as (b & Hb & Ht). rewrite Ht, Hb.
    unfold speed_improvement, py_div.
    destruct (Qeq_bool b 0); reflexivity.
  - intros [|r0 rest]; reflexivity.
Qed.

(** ** Verbose output *)

(** C8 fails on the code: [__init__] sets [self.results] to the empty
    dictionary and nothing stores a run in it, so the detailed view is its
    three heading lines and no captured output, whatever the benchmarks
    printed. *)
Theorem verbose_shows_no_captured_output :
  (forall w : world,
     _display_detailed_output (RICH_AVAILABLE w) (__init__ w)
     = [ Printed (nl ++ replicate 60 "=")%string;
         Printed (if RICH_AVAILABLE w then "[bold]Detailed Benchmark Output:[/bold]"
                else "Detailed Benchmark Output:")%string;
         Printed (replicate 60 "=") ])
  /\ main (scenario_world true) true false
     = ([ Header; SystemInfo;
          Table "Available Benchmarks"
            [ ["Basic"; "[green]Ready[/green]"; "Single-threaded scalar operations"];
              ["Vectorized"; "[green]Ready[/green]"; "Multi-threaded + AVX2 vectorization"];
              ["Gpu"; "[red]Missing[/red]"; "GPU/OpenCL compute (if available)"] ]%string;
          Printed (nl ++ "Running 2 benchmark(s)..." ++ nl)%string;
          Spinner "[bold green]Running basic benchmark...";
          Printed "[green]ok[/green] basic completed in 2.50s";
          Spinner "[bold green]Running vectorized benchmark...";
          Printed "[green]ok[/green] vectorized completed in 1.25s";
          Table "Benchmark Results"
            [ ["Basic"; "[yellow]800 MFLOPS[/yellow]"; "1.0x"; "2.5s"];
              ["Vectorized"; "[bold green]4.20 GFLOPS[/bold green]"; "0.0x"; "1.2s"] ]%string;
          Panel "Summary"
            ("Peak Performance: [bold green]0.80 GFLOPS[/bold green]" ++ nl
             ++ "Best Configuration: [cyan]Basic[/cyan]" ++ nl
             ++ "Speed Improvement: [yellow]1.0x over baseline[/yellow]")%string;
          Printed (nl ++ replicate 60 "=")%string;
          Printed "[bold]Detailed Benchmark Output:[/bold]";
          Printed (replicate 60 "=") ],
        None).
Proof.
  split; [intro w; reflexivity | vm_compute; reflexivity].
Qed.

(** ** Registry *)

(** C10 (amended): an entry that is marked executable names a path that
    exists in the file system, as a file or as a directory. *)
Theorem executable_implies_path_exists (w : world) (n : string) (info : bench_info) :
  In (n, info) (_detect_benchmarks w) ->
  executable info = true ->
  path_exists w (path info) = true.
Proof.
  unfold _detect_benchmarks. intros Hin Hx.
  apply in_map_iff in Hin. destruct Hin as ([n0 f] & Heq & _).
  injection Heq as _ <-. cbn [path executable fst snd] in *.
  destruct (path_exists w (resolve w f)); [reflexivity | discriminate].
Qed.

(** the entry of a directory *)
Lemma executable_implies_path_exists_witness :
  In ("basic"%string, mkInfo false "/bench/basic_benchmark" true)
     (_detect_benchmarks directory_world)
  /\ path_exists directory_world "/bench/basic_benchmark" = true.
Proof.
  split; [left; reflexivity|].
  apply (executable_implies_path_exists directory_world "basic"
           (mkInfo false "/bench/basic_benchmark" true)).
  - left. reflexivity.
  - reflexivity.
Defined.

(** C10 as stated fails: for a directory with search permission the entry
    is executable although it is not available. *)
Lemma executable_without_available :
  ~ (forall (n : string) (info : bench_info),
       In (n, info) (_detect_benchmarks directory_world) ->
       available info = false -> executable info = false).
Proof.
  intro H.
  specialize (H "basic"%string (mkInfo false "/bench/basic_benchmark" true)).
  cbn [available executable] in H.
  assert (Hx : true = false) by (apply H; [left; reflexivity | reflexivity]).
  discriminate.
Qed.

(** ** The MFLOPS tag on a line *)

Ltac eat_literal H s c :=
  destruct s as [|c s]; [discriminate H|];
  cbn [match_seq match_atom] in H;
  destruct (Ascii.eqb c _) eqn:?; [|discriminate H];
  match goal with E : Ascii.eqb c _ = true |- _ => apply Ascii.eqb_eq in E; subst c end.

(** a match of the MFLOPS pattern starts with the tag *)
Lemma match_at_mflops_prefix (s g : string) :
  match_at mflops_re s = Some g -> starts_with "MFLOPS:" s = true.
Proof.
  unfold match_at, mflops_re. cbn [pat_before pat_group pat_after lits
    list_ascii_of_string map app]. intro H.
  eat_literal H s c1. eat_literal H s c2. eat_literal H s c3.
  eat_literal H s c4. eat_literal H s c5. eat_literal H s c6.
  eat_literal H s c7. reflexivity.
Qed.

Ltac split_eqb :=
  repeat match goal with
         | |- context [Ascii.eqb ?a ?b] =>
             let E := fresh "E" in
             destruct (Ascii.eqb a b) eqn:E;
             [apply Ascii.eqb_eq in E; try discriminate E; subst | ];
             cbn [andb]; try reflexivity
         end.

(** the tag cannot begin inside a text without the tag and end in a
    following copy of the tag: its seven characters are all different *)
Lemma no_straddling_tag (c : ascii) (pre rest : string) :
  contains "MFLOPS:" (String c pre) = false ->
  starts_with "MFLOPS:" (String c pre ++ "MFLOPS:" ++ rest)%string = false.
Proof.
  intro H. cbn [contains] in H. apply orb_false_elim in H. destruct H as [H _].
  destruct pre as [|c2 [|c3 [|c4 [|c5 [|c6 [|c7 pre]]]]]];
    cbn [starts_with append] in *; try exact H; split_eqb.
Qed.

Lemma contains_tail (needle : string) (c : ascii) (s : string) :
  contains needle (String c s) = false -> contains needle s = false.
Proof.
  intro H. cbn [contains] in H. apply orb_false_elim in H. apply H.
Qed.

Lemma match_at_tag_here (post : string) :
  starts_with_numchar post = false ->
  match_at mflops_re ("MFLOPS: 1234.5" ++ post)%string = Some "1234.5"%string.
Proof.
  intro H. destruct post as [|c post]; [reflexivity|].
  cbn [starts_with_numchar] in H.
  unfold match_at, mflops_re. cbn. rewrite H. reflexivity.
Qed.

Lemma search_hit (p : pattern) (s g : string) :
  match_at p s = Some g -> search p s = Some g.
Proof.
  intro H. destruct s; cbn [search]; rewrite H; reflexivity.
Qed.

Lemma search_miss (p : pattern) (c : ascii) (s : string) :
  match_at p (String c s) = None -> search p (String c s) = search p s.
Proof.
  intro H. cbn [search]. rewrite H. reflexivity.
Qed.

Lemma search_finds_tag (pre post : string) :
  contains "MFLOPS:" pre = false ->
  starts_with_numchar post = false ->
  search mflops_re (pre ++ "MFLOPS: 1234.5" ++ post)%string = Some "1234.5"%string.
Proof.
  intros Hpre Hpost. induction pre as [|c pre IH].
  - apply search_hit. now apply match_at_tag_here.
  - change (String c pre ++ "MFLOPS: 1234.5" ++ post)%string
      with (String c (pre ++ "MFLOPS: 1234.5" ++ post)%string).
    rewrite search_miss.
    + apply IH. eapply contains_tail. exact Hpre.
    + destruct (match_at mflops_re (String c (pre ++ "MFLOPS: 1234.5" ++ post)%string))
        as [g|] eqn:E; [|reflexivity].
      apply match_at_mflops_prefix in E.
      pose proof (no_straddling_tag c pre (" 1234.5" ++ post)%string Hpre) as Hno.
      change (String c pre ++ "MFLOPS:" ++ " 1234.5" ++ post)%string
        with (String c (pre ++ "MFLOPS: 1234.5" ++ post)%string) in Hno.
      congruence.
Qed.

(** *** The loop over the lines *)

Lemma parse_lines_app (l1 l2 : list string) : forall acc,
  parse_lines (l1 ++ l2) acc = (acc' <- parse_lines l1 acc ;; parse_lines l2 acc').
Proof.
  induction l1 as [|line l1 IH]; intro acc; cbn [app parse_lines bind]; [reflexivity|].
  destruct (parse_line line acc) as [acc1|e]; cbn [bind]; [apply IH | reflexivity].
Qed.

Lemma py_float_raises (tok : string) (e : exn) :
  py_float tok = Raise e -> exists msg, e = ValueError msg.
Proof.
  unfold py_float. destruct (_ && _)%bool; [discriminate|].
  intro H. injection H as <-. eexists. reflexivity.
Qed.

Lemma append_sample_cases (tok : string) (l : list Q) :
  (exists v, (v <- py_float tok ;; Ok (l ++ [v])) = Ok (l ++ [v]))
  \/ (exists msg, (v <- py_float tok ;; Ok (l ++ [v])) = Raise (ValueError msg)).
Proof.
  destruct (py_float tok) as [v|e] eqn:E; cbn [bind].
  - left. now exists v.
  - right. apply py_float_raises in E. destruct E as (msg & ->). now exists msg.
Qed.

Lemma mflops_step_cases (line : string) (m : list Q) :
  (exists d, mflops_step line m = Ok (m ++ d))
  \/ (exists msg, mflops_step line m = Raise (ValueError msg)).
Proof.
  unfold mflops_step. destruct (search mflops_re line) as [tok|].
  - destruct (append_sample_cases tok m) as [(v & H)|H]; [left; now exists [v] | now right].
  - left. exists []. now rewrite app_nil_r.
Qed.

Lemma gflops_step_cases (line : string) (g : list Q) :
  (exists d, gflops_step line g = Ok (g ++ d))
  \/ (exists msg, gflops_step line g = Raise (ValueError msg)).
Proof.
  unfold gflops_step. destruct (search gflops_re line) as [tok|].
  - destruct (append_sample_cases tok g) as [(v & H)|H]; [left; now exists [v] | now right].
  - left. exists []. now rewrite app_nil_r.
Qed.

(** the loop only appends to the two lists, and [ValueError] is all it raises *)
Lemma parse_lines_cases (lines : list string) : forall m g : list Q,
  (exists dm dg, parse_lines lines (m, g) = Ok (m ++ dm, g ++ dg))
  \/ (exists msg, parse_lines lines (m, g) = Raise (ValueError msg)).
Proof.
  induction lines as [|line rest IH]; intros m g; cbn [parse_lines].
  - left. exists [], []. now rewrite !app_nil_r.
  - unfold parse_line. cbn [fst snd].
    destruct (mflops_step_cases line m) as [(dm & ->)|(msg & ->)]; cbn [bind];
      [|right; now exists msg].
    destruct (gflops_step_cases line g) as [(dg & ->)|(msg & ->)]; cbn [bind];
      [|right; now exists msg].
    destruct (IH (m ++ dm) (g ++ dg)) as [(dm' & dg' & ->)|(msg & ->)];
      [|right; now exists msg].
    left. exists (dm ++ dm'), (dg ++ dg'). now rewrite !app_assoc.
Qed.

(** C9 (amended): on a line that shows [MFLOPS: 1234.5] with no earlier
    [MFLOPS:] tag before it and no digit or dot right after it, the loop
    body appends 1234.5 to the MFLOPS samples, whatever else stands before
    or after, and the GFLOPS search of the same line runs next.  For a text
    with such a line, the samples returned hold 1234.5 after the MFLOPS
    samples of the earlier lines. *)
Theorem mflops_tag_is_appended (pre post : string) (m g : list Q) :
  contains "MFLOPS:" pre = false ->
  starts_with_numchar post = false ->
  mflops_step (pre ++ "MFLOPS: 1234.5" ++ post)%string m = Ok (m ++ [1234.5])
  /\ parse_line (pre ++ "MFLOPS: 1234.5" ++ post)%string (m, g)
     = (g' <- gflops_step (pre ++ "MFLOPS: 1234.5" ++ post)%string g ;;
        Ok (m ++ [1234.5], g'))
  /\ forall (text : string) (before after : list string),
       split_lines text = before ++ (pre ++ "MFLOPS: 1234.5" ++ post)%string :: after ->
       match parse_output text with
       | Ok (ms, _) =>
           exists m1 g1 m2,
             parse_lines before ([], []) = Ok (m1, g1) /\ ms = m1 ++ 1234.5 :: m2
       | Raise e => exists msg, e = ValueError msg
       end.
Proof.
  intros Hpre Hpost.
  assert (Hstep : forall m0, mflops_step (pre ++ "MFLOPS: 1234.5" ++ post)%string m0
                             = Ok (m0 ++ [1234.5])).
  { intro m0. unfold mflops_step. rewrite (search_finds_tag pre post Hpre Hpost).
    reflexivity. }
  assert (Hline : forall m0 g0,
            parse_line (pre ++ "MFLOPS: 1234.5" ++ post)%string (m0, g0)
            = (g' <- gflops_step (pre ++ "MFLOPS: 1234.5" ++ post)%string g0 ;;
               Ok (m0 ++ [1234.5], g'))).
  { intros m0 g0. unfold parse_line. cbn [fst snd]. rewrite Hstep. reflexivity. }
  split; [apply Hstep|]. split; [apply Hline|].
  intros text before after Hsplit.
  unfold parse_output. rewrite Hsplit, parse_lines_app.
  destruct (parse_lines_cases before [] []) as [(m1 & g1 & ->)|(msg & ->)]; cbn [bind];
    [|now exists msg].
  cbn [app parse_lines]. rewrite Hline.
  destruct (gflops_step_cases (pre ++ "MFLOPS: 1234.5" ++ post)%string g1)
    as [(dg & ->)|(msg & ->)]; cbn [bind]; [|now exists msg].
  destruct (parse_lines_cases after (m1 ++ [1234.5]) (g1 ++ dg))
    as [(dm & dg' & ->)|(msg & ->)]; [|now exists msg].
  exists m1, g1, dm. split; [reflexivity|]. now rewrite <- app_assoc.
Qed.

(** a line with text on both sides of the tag *)
Lemma mflops_tag_is_appended_witness :
  contains "MFLOPS:" "Peak rate " = false
  /\ starts_with_numchar " (scalar)" = false
  /\ mflops_step "Peak rate MFLOPS: 1234.5 (scalar)" [800] = Ok [800; 1234.5].
Proof.
  split; [reflexivity|]. split; [reflexivity|].
  apply (mflops_tag_is_appended "Peak rate " " (scalar)" [800] []); reflexivity.
Defined.

(** C9 as stated fails: a digit right after the text changes the sample,
    and an earlier tag on the line is read instead. *)
Lemma mflops_tag_claim_fails :
  ~ (forall (pre post : string) (m : list Q),
       mflops_step (pre ++ "MFLOPS: 1234.5" ++ post)%string m = Ok (m ++ [1234.5])).
Proof.
  intro H. specialize (H ""%string "6"%string []).
  vm_compute in H. discriminate.
Qed.

(** * Further properties of the pipeline *)

(** ** Which runs are aggregated *)

Lemma run_benchmark_succeeds_iff (n p : string) (o : run_outcome) :
  exit_ok_and_parsed o = true <-> exists r, _run_benchmark n p o = Succeeded r.
Proof.
  destruct o as [rc out err t0 t1|part|e]; cbn [exit_ok_and_parsed _run_benchmark].
  - destruct (rc =? 0)%Z; cbn [negb andb].
    + destruct (parse_output out) as [[m g]|e].
      * split; [intros _; eexists; reflexivity | reflexivity].
      * split; [discriminate | intros (r & H); discriminate H].
    + split; [discriminate | intros (r & H); discriminate H].
  - split; [discriminate | intros (r & H); discriminate H].
  - split; [discriminate | intros (r & H); discriminate H].
Qed.

Lemma run_one_cases (w : world) (verbose : bool) (ni : string * bench_info) :
  map name (snd (run_one w verbose ni))
  = if exit_ok_and_parsed (spawn w (path (snd ni))) then [fst ni] else [].
Proof.
  pose proof (run_benchmark_succeeds_iff (fst ni) (path (snd ni))
                (spawn w (path (snd ni)))) as Hiff.
  unfold run_one.
  destruct (_run_benchmark _ _ _) as [r|err d]; cbn [snd map name].
  - destruct (exit_ok_and_parsed _); [reflexivity|].
    destruct Hiff as [_ Hiff]. discriminate Hiff. now exists r.
  - destruct (exit_ok_and_parsed _); [|reflexivity].
    destruct Hiff as [Hiff _]. destruct (Hiff eq_refl) as (r & H). discriminate H.
Qed.

Lemma run_all_cons (w : world) (verbose : bool) (ni : string * bench_info)
    (rest : list (string * bench_info)) :
  run_all w verbose (ni :: rest)
  = (fst (run_one w verbose ni) ++ fst (run_all w verbose rest),
     snd (run_one w verbose ni) ++ snd (run_all w verbose rest)).
Proof.
  cbn [run_all]. destruct (run_one w verbose ni), (run_all w verbose rest).
  reflexivity.
Qed.

(** X1: the measurements handed to the report are those of the runnable
    benchmarks whose process ended with exit code 0 and whose output parsed,
    in registry order; every other run is left out of the aggregation. *)
Theorem measurements_are_the_successful_runs (w : world) (self : BenchmarkRunner) :
  map name (results_data w self)
  = map fst (filter (fun ni => exit_ok_and_parsed (spawn w (path (snd ni))))
                    (available_benchmarks self)).
Proof.
  unfold results_data.
  induction (available_benchmarks self) as [|ni rest IH]; [reflexivity|].
  rewrite run_all_cons. cbn [snd filter]. rewrite map_app, IH, run_one_cases.
  destruct (exit_ok_and_parsed _); reflexivity.
Qed.

(** ** Only the runnable executables are launched *)

Lemma run_all_same_spawn (w : world) (sp : string -> run_outcome) (verbose : bool)
    (l : list (string * bench_info)) :
  (forall ni, In ni l -> sp (path (snd ni)) = spawn w (path (snd ni))) ->
  run_all (with_spawn w sp) verbose l = run_all w verbose l.
Proof.
  induction l as [|ni rest IH]; intro H; [reflexivity|].
  rewrite !run_all_cons, IH by (intros; apply H; now right).
  assert (H1 : run_one (with_spawn w sp) verbose ni = run_one w verbose ni).
  { unfold run_one. cbn [with_spawn spawn RICH_AVAILABLE].
    rewrite (H ni (or_introl eq_refl)). reflexivity. }
  now rewrite H1.
Qed.

(** X2: what [run_benchmarks] writes and raises depends on the child
    processes only through the executables of the runnable entries: a world
    that differs in the behaviour of any other path gives the same run. *)
Theorem only_runnable_entries_are_launched (w : world) (self : BenchmarkRunner)
    (verbose : bool) (sp : string -> run_outcome) :
  (forall ni, In ni (available_benchmarks self) ->
              sp (path (snd ni)) = spawn w (path (snd ni))) ->
  run_benchmarks (with_spawn w sp) self verbose = run_benchmarks w self verbose.
Proof.
  intro H. unfold run_benchmarks.
  remember (available_benchmarks self) as avail eqn:E.
  destruct avail as [|ni rest]; [reflexivity|].
  rewrite (run_all_same_spawn w sp verbose _ H). reflexivity.
Qed.

(** the scenario with a [gpu] executable that would hang *)
Lemma only_runnable_entries_are_launched_witness :
  run_benchmarks
    (with_spawn (scenario_world false)
       (fun p => if String.eqb p "/bench/gpu_benchmark" then TimeoutExpired ""
                 else spawn (scenario_world false) p))
    (__init__ (scenario_world false)) true
  = run_benchmarks (scenario_world false) (__init__ (scenario_world false)) true.
Proof.
  apply (only_runnable_entries_are_launched (scenario_world false)
           (__init__ (scenario_world false)) true).
  intros ni Hin. vm_compute in Hin.
  destruct Hin as [<-|[<-|[]]]; reflexivity.
Defined.

(** ** Failures are reported by name *)





(** ** Peaks are never negative *)

Lemma peak_gflops_nonneg (m g : list Q) : nonneg m -> nonneg g -> 0 <= peak_gflops m g.
Proof.
  intros Hm Hg. unfold nonneg in *. rewrite Forall_forall in Hm, Hg.
  destruct g as [|y g]; cbn [peak_gflops].
  - destruct m as [|x m]; [apply Qle_refl|].
    unfold Qdiv. apply Qmult_le_0_compat; [|discriminate].
    apply Hm. unfold max_of. apply (max_by_key_In (fun v => v)).
  - apply Hg. unfold max_of. apply (max_by_key_In (fun v => v)).
Qed.

Lemma run_one_peaks_nonneg (w : world) (verbose : bool) (ni : string * bench_info) :
  Forall (fun r => 0 <= mflops r /\ 0 <= gflops r /\ nonneg (details r))
         (snd (run_one w verbose ni)).
Proof.
  unfold run_one.
  destruct (_run_benchmark _ _ _) as [r|err d] eqn:E; cbn [snd]; [|constructor].
  constructor; [|constructor]. cbn [mflops gflops details].
  apply run_benchmark_success in E.
  destruct E as (out & err & t0 & t1 & _ & Hp & _ & Hm & Hg & _).
  unfold parse_output in Hp.
  destruct (parse_lines_nonneg _ ([], []) _ (Forall_nil _) (Forall_nil _) Hp)
    as [Hpm Hpg].
  cbn [fst snd] in Hpm, Hpg.
  rewrite Hm, Hg. repeat split.
  - now apply peak_mflops_nonneg.
  - now apply peak_gflops_nonneg.
  - exact Hpm.
Qed.

(** X4: every measurement that reaches the report has a peak MFLOPS and a
    peak GFLOPS that are at least zero, and only non-negative samples. *)
Theorem collected_peaks_are_nonnegative (w : world) (self : BenchmarkRunner) :
  Forall (fun r => 0 <= mflops r /\ 0 <= gflops r /\ nonneg (details r))
         (results_data w self).
Proof.
  unfold results_data.
  induction (available_benchmarks self) as [|ni rest IH]; [constructor|].
  rewrite run_all_cons. cbn [snd]. apply Forall_app. split; [|exact IH].
  apply run_one_peaks_nonneg.
Qed.

(** ** When the run ends in an exception *)





(** ** The row of the baseline *)




(** ** Which entries are runnable *)

(** X11: an entry is among the benchmarks that are run exactly when it is
    one of the three registered names and a regular file with execute
    permission stands at its file name under the working directory. *)
Theorem runnable_iff_executable_file (w : world) (n : string) (info : bench_info) :
  In (n, info) (available_benchmarks (__init__ w))
  <-> exists f, In (n, f) benchmark_files
                /\ info = mkInfo true (resolve w f) true
                /\ fs w (resolve w f) = Some runnable.
Proof.
  unfold available_benchmarks, __init__. cbn [capabilities_benchmarks].
  rewrite filter_In. unfold _detect_benchmarks. rewrite in_map_iff. split.
  - intros [([n0 f] & Heq & Hin) Hok]. cbn [fst snd] in Heq.
    injection Heq as -> <-. cbn [snd available executable] in Hok.
    exists f. split; [exact Hin|].
    unfold path_exists, path_is_file, os_access_X_OK in *.
    destruct (fs w (resolve w f)) as [[reg x]|]; cbn in Hok; [|discriminate].
    destruct reg, x; try discriminate. split; reflexivity.
  - intros (f & Hin & -> & Hfs). split.
    + exists (n, f). split; [|exact Hin]. cbn [fst snd].
      unfold path_exists, path_is_file, os_access_X_OK. rewrite Hfs. reflexivity.
    + reflexivity.
Qed.

(** ** The driver *)


(** X13: the dependency hint is silent exactly when the three optional
    packages are all there; otherwise it is four lines. *)
Theorem dependency_hint_iff_missing (w : world) :
  (check_dependencies w = []
   <-> RICH_AVAILABLE w && CLICK_AVAILABLE w && PSUTIL_AVAILABLE w = true)
  /\ (check_dependencies w = [] \/ List.length (check_dependencies w) = 4%nat).
Proof.
  unfold check_dependencies.
  destruct (RICH_AVAILABLE w), (CLICK_AVAILABLE w), (PSUTIL_AVAILABLE w);
    cbn [app andb]; (split; [split; [try discriminate; reflexivity
                                   | try discriminate; reflexivity]
                            | (now left) || (now right)]).
Qed.

(** * Further properties of the parser *)

(** ** The matcher on runs of a class *)

Lemma numchar_not_space (c : ascii) : is_numchar c = true -> is_space c = false.
Proof.
  destruct c as [b0 b1 b2 b3 b4 b5 b6 b7].
  destruct b0, b1, b2, b3, b4, b5, b6, b7; vm_compute; intro; congruence.
Qed.

Lemma space_not_numchar (c : ascii) : is_space c = true -> is_numchar c = false.
Proof.
  intro H. destruct (is_numchar c) eqn:E; [|reflexivity].
  apply numchar_not_space in E. congruence.
Qed.

(** a greedy repetition takes a whole run of the class when what follows
    the run is accepted by the rest of the pattern *)
Lemma greedy_all {A : Type} (cls : ascii -> bool) (t rest : string) :
  forall (k : string -> string -> option A) (x : A),
    all_in cls t = true -> head_in cls rest = false ->
    k t rest = Some x -> greedy cls (t ++ rest)%string k = Some x.
Proof.
  induction t as [|a t IH]; intros k x Ht Hrest Hk.
  - cbn [append]. destruct rest as [|c rest]; cbn [greedy]; [exact Hk|].
    cbn [head_in] in Hrest. rewrite Hrest. exact Hk.
  - cbn [all_in] in Ht. apply andb_true_iff in Ht. destruct Ht as [Ha Ht].
    cbn [append greedy]. rewrite Ha.
    rewrite (IH (fun m r => k (String a m) r) x Ht Hrest Hk). reflexivity.
Qed.

Lemma match_lits {A : Type} (t : string) : forall (p : list atom) (rest : string)
    (k : string -> option A),
  match_seq (lits t ++ p) (t ++ rest)%string k = match_seq p rest k.
Proof.
  unfold lits.
  induction t as [|a t IH]; intros p rest k; [reflexivity|].
  cbn [list_ascii_of_string map app append match_seq match_atom].
  rewrite Ascii.eqb_refl. apply IH.
Qed.

Lemma match_at_mflops_token (ws tok post : string) :
  all_in is_space ws = true -> all_in is_numchar tok = true -> tok <> ""%string ->
  starts_with_numchar post = false ->
  match_at mflops_re ("MFLOPS:" ++ ws ++ tok ++ post)%string = Some tok.
Proof.
  intros Hws Htok Hne Hpost.
  destruct tok as [|a tok]; [contradiction|].
  cbn [all_in] in Htok. apply andb_true_iff in Htok. destruct Htok as [Ha Htok].
  unfold match_at, mflops_re. cbn [pat_before pat_group pat_after].
  rewrite match_lits. cbn [match_seq match_atom].
  apply greedy_all; [exact Hws | |].
  - cbn [append head_in]. now apply numchar_not_space.
  - cbn [append]. rewrite Ha. now apply greedy_all.
Qed.

Lemma search_mflops_token (pre ws tok post : string) :
  contains "MFLOPS:" pre = false ->
  all_in is_space ws = true -> all_in is_numchar tok = true -> tok <> ""%string ->
  starts_with_numchar post = false ->
  search mflops_re (pre ++ "MFLOPS:" ++ ws ++ tok ++ post)%string = Some tok.
Proof.
  intros Hpre Hws Htok Hne Hpost. induction pre as [|c pre IH].
  - apply search_hit. now apply match_at_mflops_token.
  - change (String c pre ++ "MFLOPS:" ++ ws ++ tok ++ post)%string
      with (String c (pre ++ "MFLOPS:" ++ ws ++ tok ++ post)%string).
    rewrite search_miss.
    + apply IH. eapply contains_tail. exact Hpre.
    + destruct (match_at mflops_re (String c (pre ++ "MFLOPS:" ++ ws ++ tok ++ post)%string))
        as [g|] eqn:E; [|reflexivity].
      apply match_at_mflops_prefix in E.
      pose proof (no_straddling_tag c pre (ws ++ tok ++ post)%string Hpre) as Hno.
      change (String c pre ++ "MFLOPS:" ++ ws ++ tok ++ post)%string
        with (String c (pre ++ "MFLOPS:" ++ ws ++ tok ++ post)%string) in Hno.
      congruence.
Qed.

(** X7: on a line where the first [MFLOPS:] tag is followed by white space
    (possibly none) and then a run of digits and dots that ends before
    something else, the MFLOPS search reads exactly that run; the sample is
    appended when [float] accepts the run and [ValueError] is raised when it
    does not. *)
Theorem mflops_search_reads_the_token (pre ws tok post : string) (m : list Q) :
  contains "MFLOPS:" pre = false ->
  all_in is_space ws = true ->
  all_in is_numchar tok = true -> tok <> ""%string ->
  starts_with_numchar post = false ->
  mflops_step (pre ++ "MFLOPS:" ++ ws ++ tok ++ post)%string m
  = (v <- py_float tok ;; Ok (m ++ [v])).
Proof.
  intros Hpre Hws Htok Hne Hpost. unfold mflops_step.
  rewrite (search_mflops_token pre ws tok post Hpre Hws Htok Hne Hpost).
  reflexivity.
Qed.

(** a tab after the tag and a unit after the number *)
Lemma mflops_search_reads_the_token_witness :
  contains "MFLOPS:" "scalar  " = false
  /\ all_in is_space (String (ascii_of_nat 9) " ") = true
  /\ mflops_step ("scalar  MFLOPS:" ++ String (ascii_of_nat 9) " 0950.25/s")%string [1]
     = Ok [1; 950.25].
Proof.
  split; [reflexivity|]. split; [reflexivity|].
  apply (mflops_search_reads_the_token "scalar  " (String (ascii_of_nat 9) " ")
           "0950.25" "/s" [1]); try reflexivity.
  discriminate.
Defined.

Lemma match_at_gflops_token (tok ws post : string) :
  all_in is_numchar tok = true -> tok <> ""%string -> all_in is_space ws = true ->
  match_at gflops_re (tok ++ ws ++ "GFLOPS" ++ post)%string = Some tok.
Proof.
  intros Htok Hne Hws.
  destruct tok as [|a tok]; [contradiction|].
  cbn [all_in] in Htok. apply andb_true_iff in Htok. destruct Htok as [Ha Htok].
  unfold match_at, gflops_re. cbn [pat_before pat_group pat_after match_seq match_atom append].
  rewrite Ha. apply greedy_all; [exact Htok | |].
  - destruct ws as [|b ws]; [reflexivity|].
    cbn [all_in] in Hws. apply andb_true_iff in Hws.
    cbn [append head_in]. now apply space_not_numchar.
  - apply greedy_all; [exact Hws | reflexivity |].
    apply (match_lits "GFLOPS" [] post).
Qed.

Lemma search_gflops_token (pre tok ws post : string) :
  all_in not_numchar pre = true ->
  all_in is_numchar tok = true -> tok <> ""%string -> all_in is_space ws = true ->
  search gflops_re (pre ++ tok ++ ws ++ "GFLOPS" ++ post)%string = Some tok.
Proof.
  intros Hpre Htok Hne Hws. induction pre as [|c pre IH].
  - apply search_hit. now apply match_at_gflops_token.
  - cbn [all_in] in Hpre. apply andb_true_iff in Hpre. destruct Hpre as [Hc Hpre].
    change (String c pre ++ tok ++ ws ++ "GFLOPS" ++ post)%string
      with (String c (pre ++ tok ++ ws ++ "GFLOPS" ++ post)%string).
    rewrite search_miss; [now apply IH|].
    unfold match_at, gflops_re. cbn [pat_before pat_group match_seq match_atom].
    unfold not_numchar in Hc. apply negb_true_iff in Hc. rewrite Hc. reflexivity.
Qed.

(** X8: on a line whose first digits or dots form a run that is followed by
    white space (possibly none) and [GFLOPS], the GFLOPS search reads
    exactly that run, whatever comes after the unit; the sample is appended
    when [float] accepts the run and [ValueError] is raised when it does
    not. *)
Theorem gflops_search_reads_the_token (pre tok ws post : string) (g : list Q) :
  all_in not_numchar pre = true ->
  all_in is_numchar tok = true -> tok <> ""%string ->
  all_in is_space ws = true ->
  gflops_step (pre ++ tok ++ ws ++ "GFLOPS" ++ post)%string g
  = (v <- py_float tok ;; Ok (g ++ [v])).
Proof.
  intros Hpre Htok Hne Hws. unfold gflops_step.
  rewrite (search_gflops_token pre tok ws post Hpre Htok Hne Hws).
  reflexivity.
Qed.

(** the line of the specification's example, with text around it *)
Lemma gflops_search_reads_the_token_witness :
  all_in not_numchar "Peak: " = true
  /\ all_in is_numchar "9.87" = true
  /\ gflops_step "Peak: 9.87 GFLOPS (8 threads)" [] = Ok [9.87].
Proof.
  split; [reflexivity|]. split; [reflexivity|].
  apply (gflops_search_reads_the_token "Peak: " "9.87" " " " (8 threads)" []);
    try reflexivity.
  discriminate.
Defined.

(** ** Output without digits *)

Lemma greedy_none {A : Type} (cls : ascii -> bool) (s : string) :
  forall k : string -> string -> option A,
    (forall m r, all_in not_numchar r = true -> k m r = None) ->
    all_in not_numchar s = true -> greedy cls s k = None.
Proof.
  induction s as [|c s IH]; intros k Hk Hs; cbn [greedy]; [now apply Hk|].
  pose proof Hs as Hs'. cbn [all_in] in Hs'. apply andb_true_iff in Hs'.
  destruct Hs' as [_ Htl].
  destruct (cls c); [|now apply Hk].
  rewrite (IH (fun m r => k (String c m) r)); [now apply Hk | | exact Htl].
  intros m r Hr. now apply Hk.
Qed.

Lemma match_atom_none {A : Type} (a : atom) (s : string)
    (k : string -> string -> option A) :
  (forall m r, all_in not_numchar r = true -> k m r = None) ->
  all_in not_numchar s = true -> match_atom a s k = None.
Proof.
  intros Hk Hs. destruct a as [c|cls|cls]; cbn [match_atom].
  - destruct s as [|c' s]; [reflexivity|].
    cbn [all_in] in Hs. apply andb_true_iff in Hs. destruct Hs as [_ Hs].
    destruct (Ascii.eqb c' c); [now apply Hk | reflexivity].
  - now apply greedy_none.
  - destruct s as [|c' s]; [reflexivity|].
    cbn [all_in] in Hs. apply andb_true_iff in Hs. destruct Hs as [_ Hs].
    destruct (cls c'); [|reflexivity].
    apply greedy_none; [|exact Hs]. intros m r Hr. now apply Hk.
Qed.

Lemma match_seq_none {A : Type} (p : list atom) : forall (s : string)
    (k : string -> option A),
  (forall r, all_in not_numchar r = true -> k r = None) ->
  all_in not_numchar s = true -> match_seq p s k = None.
Proof.
  induction p as [|a p IH]; intros s k Hk Hs; cbn [match_seq]; [now apply Hk|].
  apply match_atom_none; [|exact Hs].
  intros m r Hr. now apply IH.
Qed.

Lemma numchar_group_none {A : Type} (s : string) (k : string -> string -> option A) :
  all_in not_numchar s = true -> match_atom (Plus is_numchar) s k = None.
Proof.
  intro Hs. destruct s as [|c s]; [reflexivity|].
  cbn [all_in] in Hs. apply andb_true_iff in Hs. destruct Hs as [Hc _].
  unfold not_numchar in Hc. apply negb_true_iff in Hc.
  cbn [match_atom]. rewrite Hc. reflexivity.
Qed.

Lemma search_none (p : pattern) (s : string) :
  pat_group p = Plus is_numchar ->
  all_in not_numchar s = true -> search p s = None.
Proof.
  intros Hg Hs.
  assert (Hat : forall r, all_in not_numchar r = true -> match_at p r = None).
  { intros r Hr. unfold match_at. apply match_seq_none; [|exact Hr].
    intros r1 Hr1. rewrite Hg. now apply numchar_group_none. }
  induction s as [|c s IH]; cbn [search]; rewrite (Hat _ Hs); [reflexivity|].
  cbn [all_in] in Hs. apply andb_true_iff in Hs. now apply IH.
Qed.

Lemma split_lines_all_in (cls : ascii -> bool) (text : string) :
  all_in cls text = true -> Forall (fun l => all_in cls l = true) (split_lines text).
Proof.
  induction text as [|c text IH]; intro H; cbn [split_lines].
  - now repeat constructor.
  - cbn [all_in] in H. apply andb_true_iff in H. destruct H as [Hc H].
    specialize (IH H).
    destruct (Ascii.eqb c newline); [constructor; [reflexivity | exact IH]|].
    destruct (split_lines text) as [|l ls]; [repeat constructor; cbn; now rewrite Hc|].
    inversion IH as [|? ? Hl Hls]; subst.
    constructor; [|exact Hls]. cbn [all_in]. now rewrite Hc, Hl.
Qed.

Lemma parse_lines_no_numchar (lines : list string) (acc : list Q * list Q) :
  Forall (fun l => all_in not_numchar l = true) lines ->
  parse_lines lines acc = Ok acc.
Proof.
  induction lines as [|line rest IH]; intro H; [reflexivity|].
  inversion H as [|? ? Hl Hrest]; subst.
  cbn [parse_lines]. unfold parse_line, mflops_step, gflops_step.
  rewrite !search_none by (reflexivity || exact Hl). cbn [bind].
  destruct acc as [m g]. cbn [fst snd]. now apply IH.
Qed.

(** X5: an output without any digit and any dot gives no sample, and a
    process that ends with exit code 0 on such an output is a successful
    run with both peaks at zero. *)
Theorem output_without_digits_gives_zero_peaks (text : string) :
  all_in not_numchar text = true ->
  parse_output text = Ok ([], [])
  /\ forall (n p err : string) (t0 t1 : Q),
       _run_benchmark n p (Completed 0 text err t0 t1)
       = Succeeded (mkRunOk text [] [] 0 0 (t1 - t0)).
Proof.
  intro H.
  assert (Hp : parse_output text = Ok ([], [])).
  { unfold parse_output. apply parse_lines_no_numchar.
    now apply split_lines_all_in. }
  split; [exact Hp|].
  intros n p err t0 t1. unfold _run_benchmark. cbn [Z.eqb negb].
  rewrite Hp. reflexivity.
Qed.

(** two lines of text that name the units *)
Lemma output_without_digits_gives_zero_peaks_witness :
  all_in not_numchar ("MFLOPS: n/a" ++ nl ++ "no GFLOPS figure")%string = true
  /\ parse_output ("MFLOPS: n/a" ++ nl ++ "no GFLOPS figure")%string = Ok ([], []).
Proof.
  split; [reflexivity|].
  apply (output_without_digits_gives_zero_peaks
           ("MFLOPS: n/a" ++ nl ++ "no GFLOPS figure")%string).
  reflexivity.
Defined.

(** ** One sample per line and pattern *)

Lemma append_sample_length (tok : string) (l l' : list Q) :
  (v <- py_float tok ;; Ok (l ++ [v])) = Ok l' -> List.length l' = S (List.length l).
Proof.
  destruct (py_float tok) as [v|e]; cbn [bind]; [|discriminate].
  intro H. injection H as <-. rewrite length_app. cbn [List.length]. lia.
Qed.

Lemma mflops_step_length (line : string) (m m' : list Q) :
  mflops_step line m = Ok m' -> (List.length m' <= S (List.length m))%nat.
Proof.
  unfold mflops_step. destruct (search mflops_re line) as [tok|]; intro H.
  - apply append_sample_length in H. lia.
  - injection H as <-. lia.
Qed.

Lemma gflops_step_length (line : string) (g g' : list Q) :
  gflops_step line g = Ok g' -> (List.length g' <= S (List.length g))%nat.
Proof.
  unfold gflops_step. destruct (search gflops_re line) as [tok|]; intro H.
  - apply append_sample_length in H. lia.
  - injection H as <-. lia.
Qed.

Lemma parse_lines_length (lines : list string) : forall m g m' g',
  parse_lines lines (m, g) = Ok (m', g') ->
  (List.length m' <= List.length m + List.length lines)%nat
  /\ (List.length g' <= List.length g + List.length lines)%nat.
Proof.
  induction lines as [|line rest IH]; intros m g m' g' H; cbn [parse_lines] in H.
  - injection H as <- <-. cbn [List.length]. lia.
  - unfold parse_line in H. cbn [fst snd] in H.
    destruct (mflops_step line m) as [m1|e] eqn:E1; cbn [bind] in H; [|discriminate].
    destruct (gflops_step line g) as [g1|e] eqn:E2; cbn [bind] in H; [|discriminate].
    apply IH in H. apply mflops_step_length in E1. apply gflops_step_length in E2.
    cbn [List.length]. lia.
Qed.

(** X6: each line contributes at most one MFLOPS sample and at most one
    GFLOPS sample: a parse that returns has no more samples of either kind
    than the output has lines, so a second tag on a line is not read. *)
Theorem at_most_one_sample_per_line (text : string) (m g : list Q) :
  parse_output text = Ok (m, g) ->
  (List.length m <= List.length (split_lines text))%nat
  /\ (List.length g <= List.length (split_lines text))%nat.
Proof.
  unfold parse_output. intro H. apply parse_lines_length in H.
  cbn [List.length] in H. lia.
Qed.

(** one line with two tags of each kind *)
Lemma at_most_one_sample_per_line_witness :
  parse_output "MFLOPS: 1 MFLOPS: 2, 3 GFLOPS 4 GFLOPS" = Ok ([1], [3])
  /\ (List.length [1] <= List.length (split_lines "MFLOPS: 1 MFLOPS: 2, 3 GFLOPS 4 GFLOPS"))%nat.
Proof.
  split; [reflexivity|].
  apply (at_most_one_sample_per_line "MFLOPS: 1 MFLOPS: 2, 3 GFLOPS 4 GFLOPS" [1] [3]).
  reflexivity.
Defined.

(** * The processor model of the prober *)

Lemma get_cpu_info_model (w : world) (h : host) :
  model (_get_cpu_info w h) = read_cpu_model h.
Proof.
  unfold _get_cpu_info.
  destruct (PSUTIL_AVAILABLE w); [|reflexivity].
  destruct (psutil_physical h); [|reflexivity].
  destruct (psutil_logical h); reflexivity.
Qed.

Lemma split_on_no_sep (sep : ascii) (s : string) :
  Forall (fun p => all_in (fun c => negb (Ascii.eqb c sep)) p = true) (split_on sep s).
Proof.
  induction s as [|c s IH]; cbn [split_on]; [now repeat constructor|].
  destruct (Ascii.eqb c sep) eqn:E; [constructor; [reflexivity | exact IH]|].
  destruct (split_on sep s) as [|l ls]; [repeat constructor; cbn; now rewrite E|].
  inversion IH as [|? ? Hl Hls]; subst.
  constructor; [|exact Hls]. cbn [all_in]. now rewrite E, Hl.
Qed.

Lemma lstrip_all_in (cls : ascii -> bool) (s : string) :
  all_in cls s = true -> all_in cls (lstrip s) = true.
Proof.
  induction s as [|c s IH]; intro H; [reflexivity|].
  cbn [lstrip]. destruct (is_space c); [|exact H].
  cbn [all_in] in H. apply andb_true_iff in H. now apply IH.
Qed.

Lemma rstrip_all_in (cls : ascii -> bool) (s : string) :
  all_in cls s = true -> all_in cls (rstrip s) = true.
Proof.
  induction s as [|c s IH]; intro H; [reflexivity|].
  cbn [all_in] in H. apply andb_true_iff in H. destruct H as [Hc H].
  specialize (IH H). cbn [rstrip].
  destruct (rstrip s) as [|d r].
  - destruct (is_space c); [reflexivity|]. cbn [all_in]. now rewrite Hc.
  - cbn [all_in] in *. now rewrite Hc, IH.
Qed.

Lemma rstrip_cons (c : ascii) (s : string) :
  is_space c = false -> rstrip (String c s) = String c (rstrip s).
Proof.
  intro H. cbn [rstrip]. destruct (rstrip s); [now rewrite H | reflexivity].
Qed.

Lemma rstrip_idem (s : string) : rstrip (rstrip s) = rstrip s.
Proof.
  induction s as [|c s IH]; [reflexivity|].
  cbn [rstrip]. destruct (rstrip s) as [|d r] eqn:E.
  - destruct (is_space c) eqn:Ec; [reflexivity|].
    cbn [rstrip]. now rewrite Ec.
  - change (rstrip (String c (String d r))) with
      (match rstrip (String d r) with
       | EmptyString => if is_space c then EmptyString else String c EmptyString
       | x => String c x
       end).
    rewrite IH. reflexivity.
Qed.

Lemma lstrip_head (s : string) : head_in is_space (lstrip s) = false.
Proof.
  induction s as [|c s IH]; [reflexivity|].
  cbn [lstrip]. destruct (is_space c) eqn:E; [exact IH | exact E].
Qed.

Lemma lstrip_fixed (s : string) : head_in is_space s = false -> lstrip s = s.
Proof.
  destruct s as [|c s]; [reflexivity|]. cbn [head_in lstrip]. now intros ->.
Qed.

Lemma rstrip_head (s : string) :
  head_in is_space s = false -> head_in is_space (rstrip s) = false.
Proof.
  destruct s as [|c s]; [reflexivity|]. cbn [head_in]. intro H.
  rewrite (rstrip_cons c s H). exact H.
Qed.

Lemma strip_idem (s : string) : strip (strip s) = strip s.
Proof.
  unfold strip.
  rewrite (lstrip_fixed (rstrip (lstrip s))) by (apply rstrip_head, lstrip_head).
  apply rstrip_idem.
Qed.

(** X14: the processor model that the prober reports never holds a colon
    and never begins or ends with white space: it is the default, or the
    trimmed text between the first and the second colon of the line, so a
    model name with a colon in it is cut there. *)
Theorem cpu_model_is_one_trimmed_field (w : world) (h : host) :
  all_in not_colon (model (_get_cpu_info w h)) = true
  /\ strip (model (_get_cpu_info w h)) = model (_get_cpu_info w h).
Proof.
  rewrite get_cpu_info_model. unfold read_cpu_model.
  destruct (cpuinfo h) as [lines|]; [|split; reflexivity].
  destruct (find _ lines) as [line|]; [|split; reflexivity].
  pose proof (split_on_no_sep ":" line) as Hparts.
  destruct (split_on ":" line) as [|p0 [|p ps]]; try (split; reflexivity).
  inversion Hparts as [|? ? _ Htl]; subst.
  inversion Htl as [|? ? Hp _]; subst.
  split; [|apply strip_idem].
  unfold strip. now apply rstrip_all_in, lstrip_all_in.
Qed.

Lemma split_on_prefix (sep : ascii) (k t : string) :
  all_in (fun c => negb (Ascii.eqb c sep)) k = true ->
  split_on sep (k ++ String sep t)%string = k :: split_on sep t.
Proof.
  induction k as [|a k IH]; intro H; cbn [append split_on].
  - now rewrite Ascii.eqb_refl.
  - cbn [all_in] in H. apply andb_true_iff in H. destruct H as [Ha H].
    apply negb_true_iff in Ha. rewrite Ha, (IH H). reflexivity.
Qed.

Lemma split_on_head (sep : ascii) (v rest : string) :
  all_in (fun c => negb (Ascii.eqb c sep)) v = true ->
  head_in (fun c => negb (Ascii.eqb c sep)) rest = false ->
  exists tl, split_on sep (v ++ rest)%string = v :: tl.
Proof.
  intros Hv Hrest. induction v as [|a v IH]; cbn [append].
  - destruct rest as [|c r]; [now exists []|].
    cbn [head_in] in Hrest. apply negb_false_iff in Hrest.
    cbn [split_on]. rewrite Hrest. now eexists.
  - cbn [all_in] in Hv. apply andb_true_iff in Hv. destruct Hv as [Ha Hv].
    apply negb_true_iff in Ha. destruct (IH Hv) as (tl & Htl).
    cbn [split_on]. rewrite Ha, Htl. now exists tl.
Qed.

Lemma find_first {A : Type} (f : A -> bool) (before : list A) (x : A) (after : list A) :
  forallb (fun y => negb (f y)) before = true -> f x = true ->
  find f (before ++ x :: after) = Some x.
Proof.
  intros Hb Hx. induction before as [|y before IH]; cbn [app find].
  - now rewrite Hx.
  - cbn [forallb] in Hb. apply andb_true_iff in Hb. destruct Hb as [Hy Hb].
    apply negb_true_iff in Hy. rewrite Hy. now apply IH.
Qed.

(** X15: when the first line of [/proc/cpuinfo] that contains [model name]
    is a key without colon, a colon and a value that runs to the end of the
    line or to a second colon, the reported model is the trimmed value;
    the lines after it are not consulted. *)
Theorem cpu_model_is_the_first_value (w : world) (h : host)
    (before after : list string) (k v rest : string) :
  cpuinfo h = Some (before ++ (k ++ ":" ++ v ++ rest)%string :: after) ->
  forallb (fun l => negb (contains "model name" l)) before = true ->
  contains "model name" (k ++ ":" ++ v ++ rest)%string = true ->
  all_in not_colon k = true ->
  all_in not_colon v = true ->
  head_in not_colon rest = false ->
  model (_get_cpu_info w h) = strip v.
Proof.
  intros Hfile Hbefore Hline Hk Hv Hrest.
  rewrite get_cpu_info_model. unfold read_cpu_model. rewrite Hfile.
  rewrite (find_first (fun line => contains "model name" line) before _ after
             Hbefore Hline).
  change (k ++ ":" ++ v ++ rest)%string with (k ++ String ":" (v ++ rest))%string.
  rewrite (split_on_prefix ":" k _ Hk).
  destruct (split_on_head ":" v rest Hv Hrest) as (tl & ->). reflexivity.
Qed.

(** a model name with a colon in it, and a later line that is not read *)
Lemma cpu_model_is_the_first_value_witness :
  cpuinfo sample_host
  = Some ([("processor" ++ String (ascii_of_nat 9) ": 0" ++ nl)%string]
          ++ (("model name" ++ String (ascii_of_nat 9) "") ++ ":" ++ " Vendor CPU"
              ++ ": 8 core" ++ nl)%string
          :: [("model name" ++ String (ascii_of_nat 9) ": Other" ++ nl)%string])
  /\ model (_get_cpu_info (scenario_world true) sample_host) = "Vendor CPU"%string.
Proof.
  split; [reflexivity|].
  apply (cpu_model_is_the_first_value (scenario_world true) sample_host
           [("processor" ++ String (ascii_of_nat 9) ": 0" ++ nl)%string]
           [("model name" ++ String (ascii_of_nat 9) ": Other" ++ nl)%string]
           ("model name" ++ String (ascii_of_nat 9) "")%string
           " Vendor CPU" (": 8 core" ++ nl)%string); reflexivity.
Defined.

(** * The status table and the runs *)

(** X16: an entry of the registry is shown as ready exactly when it is
    among the benchmarks that are launched. *)
Theorem ready_status_iff_launched (rich : bool) (self : BenchmarkRunner)
    (ni : string * bench_info) :
  In ni (capabilities_benchmarks self) ->
  (status_text rich (snd ni)
   = (if rich then "[green]Ready[/green]" else "Ready")%string
   <-> In ni (available_benchmarks self)).
Proof.
  intro Hin. unfold available_benchmarks. rewrite filter_In. unfold status_text.
  destruct (available (snd ni)), (executable (snd ni)), rich; cbn [andb];
    split; try (intros [_ H]; discriminate H); try discriminate;
    intros _; try reflexivity; split; (exact Hin || reflexivity).
Qed.

(** the [gpu] entry of the scenario is missing and is not launched *)
Lemma ready_status_iff_launched_witness :
  In ("basic"%string, mkInfo true "/bench/basic_benchmark" true)
     (capabilities_benchmarks (__init__ (scenario_world false)))
  /\ (status_text false (mkInfo true "/bench/basic_benchmark" true) = "Ready"%string
      <-> In ("basic"%string, mkInfo true "/bench/basic_benchmark" true)
             (available_benchmarks (__init__ (scenario_world false)))).
Proof.
  split; [left; reflexivity|].
  apply (ready_status_iff_launched false (__init__ (scenario_world false))
           ("basic"%string, mkInfo true "/bench/basic_benchmark" true)).
  left. reflexivity.
Defined.

(** * Outputs put together *)

Lemma split_lines_nonempty (s : string) : split_lines s <> [].
Proof.
  destruct s as [|c s]; cbn [split_lines]; [discriminate|].
  destruct (Ascii.eqb c newline); [discriminate|].
  destruct (split_lines s); discriminate.
Qed.

Lemma split_lines_app (a b : string) :
  split_lines (a ++ nl ++ b)%string = split_lines a ++ split_lines b.
Proof.
  induction a as [|c a IH].
  - change (EmptyString ++ nl ++ b)%string with (String newline b).
    cbn [split_lines]. rewrite Ascii.eqb_refl. reflexivity.
  - change (String c a ++ nl ++ b)%string with (String c (a ++ nl ++ b)%string).
    cbn [split_lines]. rewrite IH.
    destruct (Ascii.eqb c newline); [reflexivity|].
    pose proof (split_lines_nonempty a) as Hne.
    destruct (split_lines a) as [|l ls]; [contradiction|]. reflexivity.
Qed.

Lemma append_sample_shift (tok : string) (l : list Q) :
  (v <- py_float tok ;; Ok (l ++ [v]))
  = (d <- (v <- py_float tok ;; Ok ([] ++ [v])) ;; Ok (l ++ d)).
Proof. destruct (py_float tok); reflexivity. Qed.

Lemma mflops_step_shift (line : string) (m : list Q) :
  mflops_step line m = (d <- mflops_step line [] ;; Ok (m ++ d)).
Proof.
  unfold mflops_step. destruct (search mflops_re line) as [tok|].
  - apply append_sample_shift.
  - cbn [bind]. now rewrite app_nil_r.
Qed.

Lemma gflops_step_shift (line : string) (g : list Q) :
  gflops_step line g = (d <- gflops_step line [] ;; Ok (g ++ d)).
Proof.
  unfold gflops_step. destruct (search gflops_re line) as [tok|].
  - apply append_sample_shift.
  - cbn [bind]. now rewrite app_nil_r.
Qed.

(** the loop started on filled lists appends what it finds on empty ones *)
Lemma parse_lines_shift (lines : list string) : forall m g : list Q,
  parse_lines lines (m, g)
  = (r <- parse_lines lines ([], []) ;; Ok (m ++ fst r, g ++ snd r)).
Proof.
  induction lines as [|line rest IH]; intros m g.
  - cbn [parse_lines bind fst snd]. now rewrite !app_nil_r.
  - cbn [parse_lines]. unfold parse_line. cbn [fst snd].
    rewrite (mflops_step_shift line m), (gflops_step_shift line g).
    destruct (mflops_step line []) as [dm|e]; cbn [bind]; [|reflexivity].
    destruct (gflops_step line []) as [dg|e]; cbn [bind]; [|reflexivity].
    rewrite (IH (m ++ dm) (g ++ dg)), (IH dm dg).
    destruct (parse_lines rest ([], [])) as [[m' g']|e]; cbn [bind fst snd];
      [|reflexivity].
    now rewrite !app_assoc.
Qed.

(** X17: the samples of two outputs written one after the other, on
    separate lines, are the samples of the first followed by the samples of
    the second; the first malformed token, in that order, decides the
    exception. *)
Theorem parse_of_joined_outputs (a b : string) :
  parse_output (a ++ nl ++ b)%string
  = (ra <- parse_output a ;; rb <- parse_output b ;;
     Ok (fst ra ++ fst rb, snd ra ++ snd rb)).
Proof.
  unfold parse_output. rewrite split_lines_app, parse_lines_app.
  destruct (parse_lines (split_lines a) ([], [])) as [[ma ga]|e]; cbn [bind];
    [|reflexivity].
  rewrite parse_lines_shift. reflexivity.
Qed.
